(** * POSIX synchronization layer of nng: mutexes and condition variables

    A shallow embedding of [src/platform/posix/posix_synch.c].  The C
    functions become programs of a small state-and-outcome monad over a
    [world] that holds what the C code reaches through pointers and statics:
    the allocator's live blocks, the native mutex and condition-variable
    objects, the three function-static variables of [nni_cond_attr], and a
    tape of the return codes the platform is going to hand back from the
    native calls that can fail for reasons outside the program (resource
    shortage, time-outs, wake-ups).  Every native call is logged as an
    [event] together with its result, so that statements such as "the block
    is released before the error is returned" are statements about the
    events a call emits. *)

From Stdlib Require Import ZArith Lia String List.
From stdpp Require Import gmap.
Import ListNotations.
Local Open Scope Z_scope.

(** ** Platform and build configuration

    Constants that the file takes from headers ([nng.h], [errno.h],
    [time.h], the platform's struct layouts) and from the build flags.  They
    are parameters of the development; [linux_monotonic] and
    [linux_realtime] below are two concrete instances. *)

Record platform := {
  NNG_ENOMEM : Z;
  NNG_EBUSY : Z;
  NNG_ETIMEDOUT : Z;
  ETIMEDOUT : Z;
  CLOCK_REALTIME : Z;
  NNG_USE_GETTIMEOFDAY : bool;     (* [defined(NNG_USE_GETTIMEOFDAY)] *)
  NNG_USE_CLOCKID : Z;
  sizeof_nni_mutex : Z;            (* [sizeof (struct nni_mutex)] *)
  sizeof_nni_cond : Z              (* [sizeof (struct nni_cond)] *)
}.


(** The [#if] of [nni_cond_attr]:
    [defined(NNG_USE_GETTIMEOFDAY) || NNG_USE_CLOCKID == CLOCK_REALTIME]. *)
Definition wall_clock_build (P : platform) : bool :=
  NNG_USE_GETTIMEOFDAY P || (NNG_USE_CLOCKID P =? CLOCK_REALTIME P).

Definition linux_monotonic : platform :=
  {| NNG_ENOMEM := 2; NNG_EBUSY := 4; NNG_ETIMEDOUT := 5; ETIMEDOUT := 110;
     CLOCK_REALTIME := 0; NNG_USE_GETTIMEOFDAY := false; NNG_USE_CLOCKID := 1;
     sizeof_nni_mutex := 40; sizeof_nni_cond := 56 |}.


(** Error numbers that only the native layer produces; the C code compares
    them with 0 and nothing else. *)
Definition EPERM : Z := 1.
Definition EBUSY : Z := 16.
Definition EINVAL : Z := 22.
Definition EDEADLK : Z := 35.

(** ** Native objects *)

Definition tid := nat.

Inductive mutex_type :=
| PTHREAD_MUTEX_NORMAL
| PTHREAD_MUTEX_ERRORCHECK
| PTHREAD_MUTEX_RECURSIVE
| PTHREAD_MUTEX_DEFAULT.

(** A [pthread_mutexattr_t]: [None] while it is not initialised. *)
Definition pthread_mutexattr := option mutex_type.

(** A [pthread_mutex_t] that has been initialised. *)
Record pthread_mutex := {
  mx_type : mutex_type;
  mx_owner : option tid;
  mx_depth : nat                   (* lock count of a recursive mutex *)
}.

(** [PTHREAD_MUTEX_INITIALIZER] and a freshly initialised mutex. *)
Definition fresh_mutex (ty : mutex_type) : pthread_mutex :=
  {| mx_type := ty; mx_owner := None; mx_depth := 0%nat |}.

Definition PTHREAD_MUTEX_INITIALIZER : pthread_mutex := fresh_mutex PTHREAD_MUTEX_DEFAULT.

(** A [pthread_condattr_t]: the clock its condition variables measure
    deadlines against. *)
Record pthread_condattr := { ca_clock : Z }.

Record pthread_cond := { cv_clock : Z }.

(** The address of a native mutex: the [mx] member of the [struct nni_mutex]
    at [p], or the function-static [mx] of [nni_cond_attr]. *)
Inductive mutex_ref :=
| mx_of (p : positive)
| static_mx_ref.

(** A [pthread_condattr_t *]: NULL, or the address of the function-static
    [attr] of [nni_cond_attr], the only such object of this file. *)
Inductive condattr_ptr :=
| attr_NULL
| attr_static.

(** [struct nni_cond { pthread_cond_t cv; pthread_mutex_t *mx; }]; a member
    is [None] while it is not initialised. *)
Record nni_cond := {
  cond_cv : option pthread_cond;
  cond_mx : option mutex_ref
}.

(** [struct timespec]. *)
Record timespec := { tv_sec : Z; tv_nsec : Z }.

(** ** Events: the native calls, with their arguments and results *)

Inductive native :=
| Alloc (sz : Z)
| Free (p : positive) (sz : Z)
| MutexattrInit
| MutexattrSettype (ty : mutex_type)
| MutexattrDestroy
| MutexInit (m : mutex_ref) (a : pthread_mutexattr)
| MutexDestroy (m : mutex_ref)
| MutexLock (m : mutex_ref)
| MutexUnlock (m : mutex_ref)
| MutexTrylock (m : mutex_ref)
| CondattrInit
| CondattrSetclock (clk : Z)
| CondInit (c : positive) (a : condattr_ptr)
| CondDestroy (c : positive)
| CondSignal (c : positive)
| CondBroadcast (c : positive)
| CondWait (c : positive) (m : mutex_ref)
| CondTimedwait (c : positive) (m : mutex_ref) (ts : timespec).

(** [Call f rv]: the native call [f] returned [rv].  For [Alloc] the result
    is the address of the block, 0 for NULL; for [Free] it is 0. *)
Inductive event := Call (f : native) (rv : Z).

(** ** The world *)

Record world := {
  tape : list Z;                        (* results of the coming fallible native calls *)
  clock : Z;                            (* what [nni_clock] reads *)
  self : tid;                           (* the calling thread *)
  allocated : gmap positive Z;          (* live blocks of the allocator, with their sizes *)
  mutexes : gmap positive pthread_mutex;(* initialised [struct nni_mutex] objects *)
  conds : gmap positive nni_cond;       (* [struct nni_cond] objects *)
  nni_mutexattr : pthread_mutexattr;    (* [extern pthread_mutexattr_t nni_mutexattr];
                                           [nni_condattr], also declared, is never used *)
  static_attr : option pthread_condattr;(* [static pthread_condattr_t attr] *)
  static_mx : pthread_mutex;            (* [static pthread_mutex_t mx] *)
  static_init : Z                       (* [static int init] *)
}.

Definition set_tape (t : list Z) (w : world) : world :=
  {| tape := t; clock := clock w; self := self w; allocated := allocated w;
     mutexes := mutexes w; conds := conds w; nni_mutexattr := nni_mutexattr w;
     static_attr := static_attr w; static_mx := static_mx w; static_init := static_init w |}.

Definition set_allocated (a : gmap positive Z) (w : world) : world :=
  {| tape := tape w; clock := clock w; self := self w; allocated := a;
     mutexes := mutexes w; conds := conds w; nni_mutexattr := nni_mutexattr w;
     static_attr := static_attr w; static_mx := static_mx w; static_init := static_init w |}.

Definition set_mutexes (m : gmap positive pthread_mutex) (w : world) : world :=
  {| tape := tape w; clock := clock w; self := self w; allocated := allocated w;
     mutexes := m; conds := conds w; nni_mutexattr := nni_mutexattr w;
     static_attr := static_attr w; static_mx := static_mx w; static_init := static_init w |}.

Definition set_conds (c : gmap positive nni_cond) (w : world) : world :=
  {| tape := tape w; clock := clock w; self := self w; allocated := allocated w;
     mutexes := mutexes w; conds := c; nni_mutexattr := nni_mutexattr w;
     static_attr := static_attr w; static_mx := static_mx w; static_init := static_init w |}.

Definition set_static_attr (a : option pthread_condattr) (w : world) : world :=
  {| tape := tape w; clock := clock w; self := self w; allocated := allocated w;
     mutexes := mutexes w; conds := conds w; nni_mutexattr := nni_mutexattr w;
     static_attr := a; static_mx := static_mx w; static_init := static_init w |}.

Definition set_static_mx (m : pthread_mutex) (w : world) : world :=
  {| tape := tape w; clock := clock w; self := self w; allocated := allocated w;
     mutexes := mutexes w; conds := conds w; nni_mutexattr := nni_mutexattr w;
     static_attr := static_attr w; static_mx := m; static_init := static_init w |}.

Definition set_static_init (i : Z) (w : world) : world :=
  {| tape := tape w; clock := clock w; self := self w; allocated := allocated w;
     mutexes := mutexes w; conds := conds w; nni_mutexattr := nni_mutexattr w;
     static_attr := static_attr w; static_mx := static_mx w; static_init := i |}.

(** The state of a process at start-up: nothing allocated, the statics of
    [nni_cond_attr] as the C initialisers leave them. *)
Definition boot (t : list Z) (now : Z) (ma : pthread_mutexattr) : world :=
  {| tape := t; clock := now; self := 1%nat; allocated := ∅; mutexes := ∅; conds := ∅;
     nni_mutexattr := ma; static_attr := None;
     static_mx := PTHREAD_MUTEX_INITIALIZER; static_init := 0 |}.

(** ** The monad *)

(** How a call ends for the calling thread: it returns, [nni_panic]
    terminates the process, the thread is suspended in a native call, the
    call has undefined behaviour, or the model ran out of loop fuel. *)
Inductive result (A : Type) :=
| Done (a : A) (w : world)
| Panicked (msg : string)
| Blocked
| Undefined
| OutOfFuel.
Arguments Done {A} a w.
Arguments Panicked {A} msg.
Arguments Blocked {A}.
Arguments Undefined {A}.
Arguments OutOfFuel {A}.

Definition M (A : Type) : Type := world -> list event * result A.

Definition ret {A} (a : A) : M A := fun w => ([], Done a w).

Definition bind {A B} (m : M A) (k : A -> M B) : M B :=
  fun w =>
    match m w with
    | (e1, Done a w1) => let '(e2, r) := k a w1 in (e1 ++ e2, r)
    | (e1, Panicked msg) => (e1, Panicked msg)
    | (e1, Blocked) => (e1, Blocked)
    | (e1, Undefined) => (e1, Undefined)
    | (e1, OutOfFuel) => (e1, OutOfFuel)
    end.

Declare Scope synch_scope.
Delimit Scope synch_scope with synch.
Notation "x <- m ;; k" := (bind m (fun x => k))
  (at level 100, m at next level, right associativity) : synch_scope.
Notation "m ;; k" := (bind m (fun _ => k))
  (at level 100, right associativity) : synch_scope.
Local Open Scope synch_scope.

Definition get {A} (f : world -> A) : M A := fun w => ([], Done (f w) w).
Definition modify (f : world -> world) : M unit := fun w => ([], Done tt (f w)).
Definition emit (e : event) : M unit := fun w => ([e], Done tt w).
Definition undefined {A} : M A := fun _ => ([], Undefined).
Definition blocked {A} : M A := fun _ => ([], Blocked).

(** The next result the platform hands back; an exhausted tape means that
    every further call succeeds. *)
Definition pop : M Z :=
  fun w => match tape w with
           | [] => ([], Done 0 w)
           | r :: t => ([], Done r (set_tape t w))
           end.

(** [nni_panic]: logs and terminates the process; never returns. *)
Definition nni_panic {A} (msg : string) : M A := fun _ => ([], Panicked msg).

(** C control flow inside a loop body: fall through to the next test of the
    condition, or leave the function with a value. *)
Inductive ctl (A : Type) :=
| Next
| Return (a : A).
Arguments Next {A}.
Arguments Return {A} a.

(** [while (cond) body], with fuel for the number of tests of [cond]. *)
Fixpoint while_ {A} (fuel : nat) (cond : world -> bool) (body : M (ctl A)) : M (ctl A) :=
  match fuel with
  | O => fun _ => ([], OutOfFuel)
  | S fuel' =>
      c <- get cond ;;
      if c : bool then
        r <- body ;;
        match r with
        | Next => while_ fuel' cond body
        | Return a => ret (Return a)
        end
      else ret Next
  end.

(** ** The native layer

    The allocator, the clock and the pthread calls, as far as the C code
    can observe them.  Calls that can fail for reasons outside the program
    take their result from the tape; locking a mutex is decided by the state
    of the mutex, following the table of mutex types in POSIX. *)

Definition get_mutex (r : mutex_ref) (w : world) : option pthread_mutex :=
  match r with
  | mx_of p => mutexes w !! p
  | static_mx_ref => Some (static_mx w)
  end.

Definition put_mutex (r : mutex_ref) (m : pthread_mutex) (w : world) : world :=
  match r with
  | mx_of p => set_mutexes (<[p := m]> (mutexes w)) w
  | static_mx_ref => set_static_mx m w
  end.

Definition drop_mutex (r : mutex_ref) (w : world) : world :=
  match r with
  | mx_of p => set_mutexes (delete p (mutexes w)) w
  | static_mx_ref => w
  end.

(** Writing one member of the [struct nni_cond] at [c]; the other member
    keeps its value, indeterminate ([None]) in a block that was never
    written. *)
Definition store_cond_mx (c : positive) (r : mutex_ref) (w : world) : world :=
  let cv := match conds w !! c with Some o => cond_cv o | None => None end in
  set_conds (<[c := {| cond_cv := cv; cond_mx := Some r |}]> (conds w)) w.

Definition store_cond_cv (c : positive) (v : option pthread_cond) (w : world) : world :=
  let mx := match conds w !! c with Some o => cond_mx o | None => None end in
  set_conds (<[c := {| cond_cv := v; cond_mx := mx |}]> (conds w)) w.

Definition load_cond_cv (c : positive) (w : world) : option pthread_cond :=
  match conds w !! c with Some o => cond_cv o | None => None end.

Definition load_cond_mx (c : positive) (w : world) : option mutex_ref :=
  match conds w !! c with Some o => cond_mx o | None => None end.

(** [nni_alloc]: NULL when the platform refuses, else a block at an address
    that is not live. *)
Definition nni_alloc (sz : Z) : M (option positive) :=
  rv <- pop ;;
  if rv =? 0 then
    a <- get allocated ;;
    let p := fresh (dom a) in
    modify (set_allocated (<[p := sz]> a)) ;;
    emit (Call (Alloc sz) (Z.pos p)) ;;
    ret (Some p)
  else
    emit (Call (Alloc sz) 0) ;;
    ret None.

(** [nni_free]: the block, and the objects that lived in it, are gone. *)
Definition nni_free (p : positive) (sz : Z) : M unit :=
  modify (fun w => set_allocated (delete p (allocated w))
                     (set_mutexes (delete p (mutexes w))
                        (set_conds (delete p (conds w)) w))) ;;
  emit (Call (Free p sz) 0).

(** [nni_clock]: microseconds since an arbitrary epoch, a [uint64_t]. *)
Definition nni_clock : M Z := get (fun w => clock w mod 2 ^ 64).

(** *** Mutex attributes: the object is a local of the caller, so the calls
    return its new value next to the return code. *)

Definition pthread_mutexattr_init : M (Z * pthread_mutexattr) :=
  rv <- pop ;;
  emit (Call MutexattrInit rv) ;;
  ret (rv, if rv =? 0 then Some PTHREAD_MUTEX_DEFAULT else None).

Definition pthread_mutexattr_settype (a : pthread_mutexattr) (ty : mutex_type)
  : M (Z * pthread_mutexattr) :=
  match a with
  | None => undefined
  | Some _ =>
      rv <- pop ;;
      emit (Call (MutexattrSettype ty) rv) ;;
      ret (rv, if rv =? 0 then Some ty else a)
  end.

Definition pthread_mutexattr_destroy (a : pthread_mutexattr) : M (Z * pthread_mutexattr) :=
  match a with
  | None => undefined
  | Some _ =>
      rv <- pop ;;
      emit (Call MutexattrDestroy rv) ;;
      ret (rv, if rv =? 0 then None else a)
  end.

(** *** Mutexes *)

Definition pthread_mutex_init (r : mutex_ref) (a : pthread_mutexattr) : M Z :=
  match a with
  | None => undefined
  | Some ty =>
      rv <- pop ;;
      (if rv =? 0 then modify (put_mutex r (fresh_mutex ty)) else ret tt) ;;
      emit (Call (MutexInit r a) rv) ;;
      ret rv
  end.

Definition pthread_mutex_destroy (r : mutex_ref) : M Z :=
  o <- get (get_mutex r) ;;
  match o with
  | None => undefined
  | Some m =>
      rv <- match mx_owner m with
            | Some _ => ret EBUSY
            | None => pop
            end ;;
      (if rv =? 0 then modify (drop_mutex r) else ret tt) ;;
      emit (Call (MutexDestroy r) rv) ;;
      ret rv
  end.

(** What a locking call does to a mutex. *)
Inductive lock_step :=
| Goes (m : pthread_mutex)       (* returns 0, the mutex becomes [m] *)
| Fails (rv : Z)                 (* returns the error, the mutex is unchanged *)
| Waits                          (* the thread is suspended *)
| Undef.                         (* undefined behaviour *)

Definition take (t : tid) (m : pthread_mutex) : pthread_mutex :=
  {| mx_type := mx_type m; mx_owner := Some t; mx_depth := S (mx_depth m) |}.

Definition lock_mutex (t : tid) (m : pthread_mutex) : lock_step :=
  match mx_owner m with
  | None => Goes (take t m)
  | Some o =>
      if Nat.eqb o t then
        match mx_type m with
        | PTHREAD_MUTEX_NORMAL => Waits
        | PTHREAD_MUTEX_ERRORCHECK => Fails EDEADLK
        | PTHREAD_MUTEX_RECURSIVE => Goes (take t m)
        | PTHREAD_MUTEX_DEFAULT => Undef
        end
      else Waits
  end.

Definition trylock_mutex (t : tid) (m : pthread_mutex) : lock_step :=
  match mx_owner m with
  | None => Goes (take t m)
  | Some o =>
      if Nat.eqb o t then
        match mx_type m with
        | PTHREAD_MUTEX_RECURSIVE => Goes (take t m)
        | _ => Fails EBUSY
        end
      else Fails EBUSY
  end.

Definition unlock_mutex (t : tid) (m : pthread_mutex) : lock_step :=
  let held := match mx_owner m with Some o => Nat.eqb o t | None => false end in
  if held then
    match mx_depth m with
    | S (S d) => Goes {| mx_type := mx_type m; mx_owner := mx_owner m; mx_depth := S d |}
    | _ => Goes {| mx_type := mx_type m; mx_owner := None; mx_depth := 0 |}
    end
  else
    match mx_type m with
    | PTHREAD_MUTEX_ERRORCHECK | PTHREAD_MUTEX_RECURSIVE => Fails EPERM
    | PTHREAD_MUTEX_NORMAL | PTHREAD_MUTEX_DEFAULT => Undef
    end.

Definition locking (f : native) (step : tid -> pthread_mutex -> lock_step)
    (r : mutex_ref) : M Z :=
  o <- get (get_mutex r) ;;
  t <- get self ;;
  match o with
  | None => undefined
  | Some m =>
      match step t m with
      | Goes m' => modify (put_mutex r m') ;; emit (Call f 0) ;; ret 0
      | Fails rv => emit (Call f rv) ;; ret rv
      | Waits => blocked
      | Undef => undefined
      end
  end.

Definition pthread_mutex_lock (r : mutex_ref) : M Z := locking (MutexLock r) lock_mutex r.
Definition pthread_mutex_trylock (r : mutex_ref) : M Z := locking (MutexTrylock r) trylock_mutex r.
Definition pthread_mutex_unlock (r : mutex_ref) : M Z := locking (MutexUnlock r) unlock_mutex r.

(** *** Condition variables *)

Definition pthread_cond_destroy (c : positive) : M Z :=
  o <- get (load_cond_cv c) ;;
  match o with
  | None => undefined
  | Some _ =>
      rv <- pop ;;
      (if rv =? 0 then modify (store_cond_cv c None) else ret tt) ;;
      emit (Call (CondDestroy c) rv) ;;
      ret rv
  end.

Definition cond_call (f : native) (c : positive) : M Z :=
  o <- get (load_cond_cv c) ;;
  match o with
  | None => undefined
  | Some _ =>
      rv <- pop ;;
      emit (Call f rv) ;;
      ret rv
  end.

Definition pthread_cond_signal (c : positive) : M Z := cond_call (CondSignal c) c.
Definition pthread_cond_broadcast (c : positive) : M Z := cond_call (CondBroadcast c) c.

(** The waits release the mutex while the thread sleeps and hold it again
    when they return: the calling thread sees the mutex unchanged.  Whether
    the thread is woken, and when, is the platform's word. *)
Definition pthread_cond_wait (c : positive) (m : mutex_ref) : M Z :=
  cond_call (CondWait c m) c.
Definition pthread_cond_timedwait (c : positive) (m : mutex_ref) (ts : timespec) : M Z :=
  cond_call (CondTimedwait c m ts) c.

Section posix_synch.
Context (P : platform).

(** The attribute calls of [nni_cond_attr] act on its static [attr]. *)
Definition pthread_condattr_init (a : condattr_ptr) : M Z :=
  match a with
  | attr_NULL => undefined
  | attr_static =>
      rv <- pop ;;
      (if rv =? 0
       then modify (set_static_attr (Some {| ca_clock := CLOCK_REALTIME P |}))
       else ret tt) ;;
      emit (Call CondattrInit rv) ;;
      ret rv
  end.

Definition pthread_condattr_setclock (a : condattr_ptr) (clk : Z) : M Z :=
  o <- get static_attr ;;
  match a, o with
  | attr_static, Some _ =>
      rv <- pop ;;
      (if rv =? 0 then modify (set_static_attr (Some {| ca_clock := clk |})) else ret tt) ;;
      emit (Call (CondattrSetclock clk) rv) ;;
      ret rv
  | _, _ => undefined
  end.

(** The clock a condition variable initialised through [a] gets: the
    default, wall-clock time, for NULL. *)
Definition clock_of (a : condattr_ptr) (w : world) : option Z :=
  match a with
  | attr_NULL => Some (CLOCK_REALTIME P)
  | attr_static => ca_clock <$> static_attr w
  end.

Definition pthread_cond_init (c : positive) (a : condattr_ptr) : M Z :=
  o <- get (clock_of a) ;;
  match o with
  | None => undefined
  | Some clk =>
      rv <- pop ;;
      (if rv =? 0 then modify (store_cond_cv c (Some {| cv_clock := clk |})) else ret tt) ;;
      emit (Call (CondInit c a) rv) ;;
      ret rv
  end.

End posix_synch.

(** ** The functions of [posix_synch.c]

    A handle ([nni_mutex_t], [nni_cond_t]) is the address of its struct.  An
    out-parameter ([nni_mutex_t *mp], [nni_cond_t *cvp],
    [pthread_condattr_t **attrpp]) is modelled by what the call stores
    through it: [Some v] after [*mp = v], [None] when the function returns
    without assigning to it. *)

Notation "x '!=?' y" := (negb (Z.eqb x y)) (at level 70, no associativity) : Z_scope.

Section synch.
Context (P : platform).

Definition nni_mutex_init (mp : positive) : M Z :=
  a <- get nni_mutexattr ;;
  rv <- pthread_mutex_init (mx_of mp) a ;;
  if rv !=? 0 then
    ret (NNG_ENOMEM P)
  else
    ret 0.

Definition nni_mutex_fini (mp : positive) : M unit :=
  rv <- pthread_mutex_destroy (mx_of mp) ;;
  if rv !=? 0 then
    nni_panic "pthread_mutex_destroy failed: %s"
  else
    ret tt.

Definition nni_mutex_create : M (Z * option positive) :=
  m <- nni_alloc (sizeof_nni_mutex P) ;;
  match m with
  | None => ret (NNG_ENOMEM P, None)
  | Some m =>
      (* We ask for more error checking... *)
      r <- pthread_mutexattr_init ;;
      let '(rv, attr) := r in
      if rv !=? 0 then
        nni_free m (sizeof_nni_mutex P) ;;
        ret (NNG_ENOMEM P, None)
      else
        r <- pthread_mutexattr_settype attr PTHREAD_MUTEX_ERRORCHECK ;;
        let '(rv, attr) := r in
        if rv !=? 0 then
          nni_panic "pthread_mutexattr_settype failed"
        else
          rv <- pthread_mutex_init (mx_of m) attr ;;
          r <- pthread_mutexattr_destroy attr ;;
          if fst r !=? 0 then
            nni_panic "pthread_mutexattr_destroy failed"
          else if rv !=? 0 then
            nni_free m (sizeof_nni_mutex P) ;;
            ret (NNG_ENOMEM P, None)
          else
            ret (0, Some m)
  end.

Definition nni_mutex_destroy (m : positive) : M unit :=
  rv <- pthread_mutex_destroy (mx_of m) ;;
  if rv !=? 0 then
    nni_panic "pthread_mutex_destroy failed"
  else
    nni_free m (sizeof_nni_mutex P).

Definition nni_mutex_enter (m : positive) : M unit :=
  rv <- pthread_mutex_lock (mx_of m) ;;
  if rv !=? 0 then
    nni_panic "pthread_mutex_lock failed"
  else
    ret tt.

Definition nni_mutex_exit (m : positive) : M unit :=
  rv <- pthread_mutex_unlock (mx_of m) ;;
  if rv !=? 0 then
    nni_panic "pthread_mutex_unlock failed"
  else
    ret tt.

Definition nni_mutex_tryenter (m : positive) : M Z :=
  rv <- pthread_mutex_trylock (mx_of m) ;;
  if rv !=? 0 then
    ret (NNG_EBUSY P)
  else
    ret 0.

(** The body of [while (!init)] in [nni_cond_attr]. *)
Definition nni_cond_attr_body : M (ctl (Z * option condattr_ptr)) :=
  rv <- pthread_condattr_init P attr_static ;;
  if rv !=? 0 then
    pthread_mutex_unlock static_mx_ref ;;
    ret (Return (NNG_ENOMEM P, None))
  else
    rv <- pthread_condattr_setclock attr_static (NNG_USE_CLOCKID P) ;;
    if rv !=? 0 then
      nni_panic "condattr_setclock: %s"
    else
      modify (set_static_init 1) ;;
      ret Next.

Definition nni_cond_attr (fuel : nat) : M (Z * option condattr_ptr) :=
  if wall_clock_build P then
    ret (0, Some attr_NULL)
  else
    (* In order to make this fast, avoid reinitializing attrs. *)
    init <- get static_init ;;
    if init !=? 0 then
      ret (0, Some attr_static)
    else
      pthread_mutex_lock static_mx_ref ;;
      r <- while_ fuel (fun w => static_init w =? 0) nni_cond_attr_body ;;
      match r with
      | Return x => ret x
      | Next =>
          pthread_mutex_unlock static_mx_ref ;;
          ret (0, Some attr_static)
      end.

Definition nni_cond_create (fuel : nat) (mx : positive) : M (Z * option positive) :=
  r <- nni_cond_attr fuel ;;
  let '(rv, attrp) := r in
  if rv !=? 0 then
    ret (rv, None)
  else
    c <- nni_alloc (sizeof_nni_cond P) ;;
    match c with
    | None => ret (NNG_ENOMEM P, None)
    | Some c =>
        modify (store_cond_mx c (mx_of mx)) ;;
        match attrp with
        | None => undefined          (* [attrp] was never assigned *)
        | Some attrp =>
            rv <- pthread_cond_init P c attrp ;;
            if rv !=? 0 then
              (* In theory could be EAGAIN, but handle like ENOMEM *)
              nni_free c (sizeof_nni_cond P) ;;
              ret (NNG_ENOMEM P, None)
            else
              ret (0, Some c)
        end
    end.

Definition nni_cond_destroy (c : positive) : M unit :=
  rv <- pthread_cond_destroy c ;;
  if rv !=? 0 then
    nni_panic "pthread_cond_destroy failed"
  else
    nni_free c (sizeof_nni_cond P).

Definition nni_cond_signal (c : positive) : M unit :=
  rv <- pthread_cond_signal c ;;
  if rv !=? 0 then
    nni_panic "pthread_cond_signal failed"
  else
    ret tt.

Definition nni_cond_broadcast (c : positive) : M unit :=
  rv <- pthread_cond_broadcast c ;;
  if rv !=? 0 then
    nni_panic "pthread_cond_broadcast failed"
  else
    ret tt.

Definition nni_cond_wait (c : positive) : M unit :=
  mx <- get (load_cond_mx c) ;;
  match mx with
  | None => undefined
  | Some mx =>
      rv <- pthread_cond_wait c mx ;;
      if rv !=? 0 then
        nni_panic "pthread_cond_wait failed"
      else
        ret tt
  end.

(** [usec] is a [uint64_t]: the sum wraps at 2^64.  [time_t] and [long] are
    taken to be 64 bits wide, as on LP64 platforms: the quotient and the
    scaled remainder fit, and the two assignments do not truncate. *)
Definition nni_cond_timedwait (c : positive) (usec : Z) : M Z :=
  now <- nni_clock ;;
  let usec := (usec + now) mod 2 ^ 64 in
  let ts := {| tv_sec := usec / 1000000; tv_nsec := (usec mod 10000) * 1000 |} in
  mx <- get (load_cond_mx c) ;;
  match mx with
  | None => undefined
  | Some mx =>
      rv <- pthread_cond_timedwait c mx ts ;;
      if rv =? ETIMEDOUT P then
        ret (NNG_ETIMEDOUT P)
      else if rv !=? 0 then
        nni_panic "pthread_cond_timedwait returned %d"
      else
        ret 0
  end.

End synch.

(** ** A process: any sequence of calls into the file

    [nni_cond_attr] is static, so a process reaches it through
    [nni_cond_create] only.  The handles and addresses a process passes are
    arbitrary; results are dropped, since what the caller does with them has
    no effect on the world. *)

Inductive api :=
| MUTEX_INIT (mp : positive)
| MUTEX_FINI (mp : positive)
| MUTEX_CREATE
| MUTEX_DESTROY (m : positive)
| MUTEX_ENTER (m : positive)
| MUTEX_EXIT (m : positive)
| MUTEX_TRYENTER (m : positive)
| COND_CREATE (mx : positive)
| COND_DESTROY (c : positive)
| COND_SIGNAL (c : positive)
| COND_BROADCAST (c : positive)
| COND_WAIT (c : positive)
| COND_TIMEDWAIT (c : positive) (usec : Z).

Definition drop {A} (m : M A) : M unit := _ <- m ;; ret tt.

Definition call (P : platform) (fuel : nat) (a : api) : M unit :=
  match a with
  | MUTEX_INIT mp => drop (nni_mutex_init P mp)
  | MUTEX_FINI mp => nni_mutex_fini mp
  | MUTEX_CREATE => drop (nni_mutex_create P)
  | MUTEX_DESTROY m => nni_mutex_destroy P m
  | MUTEX_ENTER m => nni_mutex_enter m
  | MUTEX_EXIT m => nni_mutex_exit m
  | MUTEX_TRYENTER m => drop (nni_mutex_tryenter P m)
  | COND_CREATE mx => drop (nni_cond_create P fuel mx)
  | COND_DESTROY c => nni_cond_destroy P c
  | COND_SIGNAL c => nni_cond_signal c
  | COND_BROADCAST c => nni_cond_broadcast c
  | COND_WAIT c => nni_cond_wait c
  | COND_TIMEDWAIT c usec => drop (nni_cond_timedwait P c usec)
  end.

Fixpoint process (P : platform) (fuel : nat) (prog : list api) : M unit :=
  match prog with
  | [] => ret tt
  | a :: prog' => call P fuel a ;; process P fuel prog'
  end.

(** ** Reading results and event logs *)

Definition retval {A} (r : result A) : option A :=
  match r with
  | Done a _ => Some a
  | _ => None
  end.

Definition final {A} (r : result A) : option world :=
  match r with
  | Done _ w => Some w
  | _ => None
  end.

Definition panics {A} (r : result A) : Prop := exists msg, r = Panicked msg.

Definition is_alloc (f : native) : bool :=
  match f with Alloc _ => true | _ => false end.
Definition is_pthread (f : native) : bool :=
  match f with Alloc _ | Free _ _ => false | _ => true end.
Definition is_mutexattr_init (f : native) : bool :=
  match f with MutexattrInit => true | _ => false end.
Definition is_mutexattr_settype (f : native) : bool :=
  match f with MutexattrSettype _ => true | _ => false end.
Definition is_mutexattr_destroy (f : native) : bool :=
  match f with MutexattrDestroy => true | _ => false end.
Definition is_mutex_init (f : native) : bool :=
  match f with MutexInit _ _ => true | _ => false end.
Definition is_condattr_init (f : native) : bool :=
  match f with CondattrInit => true | _ => false end.
Definition is_condattr_setclock (f : native) : bool :=
  match f with CondattrSetclock _ => true | _ => false end.
Definition is_cond_init (f : native) : bool :=
  match f with CondInit _ _ => true | _ => false end.

(** Some call of kind [k] returned an error. *)
Definition failed (k : native -> bool) (evs : list event) : bool :=
  existsb (fun e => match e with Call f rv => k f && (rv !=? 0) end) evs.

(** Some allocation returned NULL. *)
Definition alloc_failed (evs : list event) : bool :=
  existsb (fun e => match e with Call f rv => is_alloc f && (rv =? 0) end) evs.

(** The log entry of an initialisation of the static attribute object that
    went through. *)
Definition computed (e : event) : bool :=
  match e with Call f rv => is_condattr_init f && (rv =? 0) end.

(** The native calls [nni_cond_attr] makes. *)
Definition is_attr_call (f : native) : bool :=
  match f with
  | MutexLock static_mx_ref | MutexUnlock static_mx_ref
  | CondattrInit | CondattrSetclock _ => true
  | _ => false
  end.

Definition attr_calls_only (evs : list event) : bool :=
  forallb (fun e => match e with Call f _ => is_attr_call f end) evs.

(** The attribute pointer a build resolves to. *)
Definition resolved (P : platform) : condattr_ptr :=
  if wall_clock_build P then attr_NULL else attr_static.

(** How many times the log shows the static attribute object being
    initialised. *)
Definition computations (evs : list event) : nat :=
  length (List.filter computed evs).

(** What is left of the one computation a process may make. *)
Definition budget (w : world) : nat := if static_init w =? 0 then 1%nat else 0%nat.

(** Every block the log shows being allocated is released, with the size it
    was allocated with, by the last call of the log. *)
Definition released_at_return (evs : list event) : Prop :=
  forall sz p, In (Call (Alloc sz) (Z.pos p)) evs ->
    exists pre, evs = pre ++ [Call (Free p sz) 0].


(** The three statics of [nni_cond_attr] are the same in both worlds. *)
Definition same_statics (w w' : world) : Prop :=
  static_init w' = static_init w /\ static_attr w' = static_attr w
  /\ static_mx w' = static_mx w.

(** The call releases the block at [c]. *)
Definition destroys (c : positive) (a : api) : bool :=
  match a with
  | COND_DESTROY c' | MUTEX_DESTROY c' => Pos.eqb c c'
  | _ => false
  end.

(** Modelled from the spec: the definition and the initialisation of
    [nni_mutexattr] are outside [posix_synch.c], which only declares it
    [extern].  The spec's data model gives every Mutex "one native OS
    mutual-exclusion object configured for error-checking behavior"; for
    the in-place constructor that is the attribute object it passes. *)
Definition nni_mutexattr_errorcheck (w : world) : Prop :=
  nni_mutexattr w = Some PTHREAD_MUTEX_ERRORCHECK.

(** The deadline as the spec words it: whole seconds, and the microsecond
    remainder of the second converted to nanoseconds. *)
Definition deadline_spec (t : Z) : timespec :=
  {| tv_sec := t / 1000000; tv_nsec := (t mod 1000000) * 1000 |}.

(** The deadline as [nni_cond_timedwait] computes it. *)
Definition deadline_code (t : Z) : timespec :=
  {| tv_sec := t / 1000000; tv_nsec := (t mod 10000) * 1000 |}.

(** ** Sample worlds

    [with_mutex] is the world after one [nni_mutex_create] in a fresh
    process, [with_cond] the world after a [nni_cond_create] on that mutex in
    a monotonic-clock build. *)

Definition with_mutex (t : list Z) (now : Z) : world :=
  {| tape := t; clock := now; self := 1%nat;
     allocated := {[ 1%positive := 40 ]};
     mutexes := {[ 1%positive := fresh_mutex PTHREAD_MUTEX_ERRORCHECK ]};
     conds := ∅;
     nni_mutexattr := Some PTHREAD_MUTEX_ERRORCHECK; static_attr := None;
     static_mx := PTHREAD_MUTEX_INITIALIZER; static_init := 0 |}.

Definition with_cond (t : list Z) (now : Z) : world :=
  {| tape := t; clock := now; self := 1%nat;
     allocated := {[ 1%positive := 40; 2%positive := 56 ]};
     mutexes := {[ 1%positive := fresh_mutex PTHREAD_MUTEX_ERRORCHECK ]};
     conds := {[ 2%positive := {| cond_cv := Some {| cv_clock := 1 |};
                                  cond_mx := Some (mx_of 1) |} ]};
     nni_mutexattr := Some PTHREAD_MUTEX_ERRORCHECK;
     static_attr := Some {| ca_clock := 1 |};
     static_mx := PTHREAD_MUTEX_INITIALIZER; static_init := 1 |}.

(** [with_mutex], the mutex held by another thread. *)
Definition with_held_mutex (t : list Z) (now : Z) : world :=
  put_mutex (mx_of 1) (take 2%nat (fresh_mutex PTHREAD_MUTEX_ERRORCHECK))
    (with_mutex t now).

(** ** Two claims of the spec, as the spec states them *)

Definition mutex_create_claim (P : platform) (w : world) : Prop :=
  let '(evs, r) := nni_mutex_create P w in
  (retval r = Some (NNG_ENOMEM P, None) <->
     alloc_failed evs = true \/ failed is_mutex_init evs = true)
  /\ (failed is_mutexattr_init evs = true \/ failed is_mutexattr_settype evs = true ->
      panics r).

Definition cond_create_claim (P : platform) (fuel : nat) (mx : positive) (w : world)
  : Prop :=
  let '(evs, r) := nni_cond_create P fuel mx w in
  retval r = Some (NNG_ENOMEM P, None) <->
    alloc_failed evs = true \/ failed is_cond_init evs = true.

(** ** Predicates of the further properties *)

(** The same world, seen from thread [t]. *)
Definition set_self (t : tid) (w : world) : world :=
  {| tape := tape w; clock := clock w; self := t; allocated := allocated w;
     mutexes := mutexes w; conds := conds w; nni_mutexattr := nni_mutexattr w;
     static_attr := static_attr w; static_mx := static_mx w; static_init := static_init w |}.

(** The call names [m] as a mutex, or releases the block at [m]. *)
Definition uses_mutex (m : positive) (a : api) : bool :=
  match a with
  | MUTEX_INIT m' | MUTEX_FINI m' | MUTEX_DESTROY m'
  | MUTEX_ENTER m' | MUTEX_EXIT m' | MUTEX_TRYENTER m'
  | COND_DESTROY m' => Pos.eqb m m'
  | _ => false
  end.

(** The call is one of the two constructors or the two destructors. *)
Definition constructs_or_destroys (a : api) : bool :=
  match a with
  | MUTEX_CREATE | MUTEX_DESTROY _ | COND_CREATE _ | COND_DESTROY _ => true
  | _ => false
  end.

(** The allocator calls of a log. *)
Definition heap_calls (evs : list event) : list event :=
  List.filter (fun e => match e with Call f _ => negb (is_pthread f) end) evs.

(** The clock a build measures deadlines against. *)
Definition expected_clock (P : platform) : Z :=
  if wall_clock_build P then CLOCK_REALTIME P else NNG_USE_CLOCKID P.

(** Once the flag is set the static attribute carries the build's clock,
    and every initialised condition variable measures against it. *)
Definition clocks_ok (P : platform) (w : world) : Prop :=
  (static_init w <> 0 -> static_attr w = Some {| ca_clock := NNG_USE_CLOCKID P |})
  /\ forall c o cv,
       conds w !! c = Some o -> cond_cv o = Some cv ->
       cv_clock cv = expected_clock P.

(** The failures no caller sees as a return code: of the calls whose result
    the file checks and cannot hand back, and of the timed wait with a code
    other than ETIMEDOUT. *)
Definition fatal_failure (P : platform) (e : event) : bool :=
  match e with
  | Call f rv =>
      (rv !=? 0) &&
      match f with
      | MutexattrSettype _ | MutexattrDestroy
      | MutexDestroy _ | MutexLock _ | MutexUnlock _
      | CondattrSetclock _
      | CondDestroy _ | CondSignal _ | CondBroadcast _ | CondWait _ _ => true
      | CondTimedwait _ _ _ => rv !=? ETIMEDOUT P
      | _ => false
      end
  end.

(** ** Symbolic execution

    The programs are straight-line code over the tape: a proof runs a call
    by unfolding the monad and splitting on the next tape entry and on
    whether a return code is 0. *)

Ltac literals :=
  repeat match goal with
         | |- context [Z.pos ?p =? 0] => change (Z.pos p =? 0) with false
         | |- context [0 =? 0] => change (0 =? 0) with true
         | H : context [Z.pos ?p =? 0] |- _ => change (Z.pos p =? 0) with false in H
         | H : context [0 =? 0] |- _ => change (0 =? 0) with true in H
         end.

Ltac run_cbn :=
  cbn [tape clock self allocated mutexes conds nni_mutexattr
       static_attr static_mx static_init
       set_tape set_allocated set_mutexes set_conds set_static_attr
       set_static_mx set_static_init
       mx_type mx_owner mx_depth
       get_mutex put_mutex drop_mutex fst snd negb app Nat.eqb while_] in *.

Ltac run_unfold :=
  unfold nni_alloc, nni_free, nni_clock,
    pthread_mutexattr_init, pthread_mutexattr_settype, pthread_mutexattr_destroy,
    pthread_mutex_init, pthread_mutex_destroy,
    pthread_mutex_lock, pthread_mutex_trylock, pthread_mutex_unlock, locking,
    pthread_cond_destroy, pthread_cond_signal, pthread_cond_broadcast,
    pthread_cond_wait, pthread_cond_timedwait, cond_call,
    pthread_condattr_init, pthread_condattr_setclock, pthread_cond_init in *;
  unfold bind, ret, get, modify, emit, undefined, blocked, pop, nni_panic,
    lock_mutex, trylock_mutex, unlock_mutex, take,
    load_cond_cv, load_cond_mx, store_cond_cv, store_cond_mx,
    PTHREAD_MUTEX_INITIALIZER, fresh_mutex, EPERM, EBUSY, EINVAL, EDEADLK in *;
  run_cbn; repeat (progress literals; run_cbn).

Ltac run_split :=
  match goal with
  | |- context [Nat.eqb ?a ?a] => rewrite (Nat.eqb_refl a)
  | |- context [match tape ?w with _ => _ end] => destruct (tape w) eqn:?
  | |- context [match ?l with [] => _ | _ :: _ => _ end] => is_var l; destruct l
  | |- context [?z =? 0] =>
      destruct (Z.eqb_spec z 0); [try subst z; try congruence | try congruence]
  | |- context [match mx_owner ?m with _ => _ end] => destruct (mx_owner m) eqn:?
  | |- context [match mx_type ?m with _ => _ end] => destruct (mx_type m) eqn:?
  | |- context [match mx_depth ?m with _ => _ end] => destruct (mx_depth m) as [|[|?]] eqn:?
  | |- context [if Nat.eqb ?a ?b then _ else _] => destruct (Nat.eqb a b) eqn:?
  | |- context [match mutexes ?w !! ?m with _ => _ end] => destruct (mutexes w !! m) eqn:?
  | |- context [match conds ?w !! ?c with _ => _ end] => destruct (conds w !! c) eqn:?
  | |- context [match cond_cv ?o with _ => _ end] => destruct (cond_cv o) eqn:?
  | |- context [match cond_mx ?o with _ => _ end] => destruct (cond_mx o) eqn:?
  | |- context [match static_attr ?w with _ => _ end] => destruct (static_attr w) eqn:?
  | |- context [match nni_mutexattr ?w with _ => _ end] => destruct (nni_mutexattr w) eqn:?
  | |- context [match clock_of ?P ?a ?w with _ => _ end] => destruct (clock_of P a w) eqn:?
  | |- context [match ?o with Some _ => _ | None => _ end] => is_var o; destruct o
  | |- context [if ?a =? ?b then _ else _] => destruct (Z.eqb_spec a b)
  end.

Ltac run := repeat (run_unfold; try run_split).

(** After a run a branch has the facts [z <> 0] about its return codes in
    the context: they decide the tests the log predicates make. *)
Ltac decide_codes :=
  repeat match goal with
         | H : ?z <> 0 |- context [?z =? 0] =>
             rewrite (proj2 (Z.eqb_neq z 0) H)
         end.

(** A run, followed by opening the equation between the run and the
    events and result the statement names. *)
Ltac ran :=
  run; intros; simplify_eq;
  cbn [failed alloc_failed attr_calls_only computations computed
       existsb forallb List.filter length andb orb negb retval final
       is_attr_call is_alloc is_pthread is_mutexattr_init is_mutexattr_settype is_mutexattr_destroy
       is_mutex_init is_condattr_init is_condattr_setclock is_cond_init];
  decide_codes; literals;
  cbn [andb orb negb].

(** Closes the propositional table a finished run leaves. *)
Ltac table :=
  repeat split; intros;
  repeat match goal with
         | H : _ \/ _ |- _ => destruct H
         | H : _ /\ _ |- _ => destruct H
         | H : exists _, _ |- _ => destruct H
         end;
  simplify_eq; try congruence; eauto 6.

(** * Properties *)

(** ** Sample worlds are reached *)

Example with_mutex_reached (t : list Z) (now : Z) :
  snd (nni_mutex_create linux_monotonic
         (boot (0 :: 0 :: 0 :: 0 :: 0 :: t) now (Some PTHREAD_MUTEX_ERRORCHECK)))
  = Done (0, Some 1%positive) (with_mutex t now).
Proof. reflexivity. Qed.

Example with_cond_reached (t : list Z) (now : Z) :
  snd (nni_cond_create linux_monotonic 2 1 (with_mutex (0 :: 0 :: 0 :: 0 :: t) now))
  = Done (0, Some 2%positive) (with_cond t now).
Proof. reflexivity. Qed.

(** Two runs in which an attribute object fails to initialise. *)

Example mutex_create_attr_init_fails :
  nni_mutex_create linux_monotonic (boot [0; 12] 0 None)
  = ([Call (Alloc 40) 1; Call MutexattrInit 12; Call (Free 1 40) 0],
     Done (2, None) (boot [] 0 None)).
Proof. reflexivity. Qed.

Example cond_create_attr_init_fails :
  nni_cond_create linux_monotonic 2 1 (with_mutex [12] 0)
  = ([Call (MutexLock static_mx_ref) 0; Call CondattrInit 12;
      Call (MutexUnlock static_mx_ref) 0],
     Done (2, None) (with_mutex [] 0)).
Proof. reflexivity. Qed.

(** ** Mutex construction *)

Lemma nni_mutex_init_run (P : platform) (mp : positive) (w : world) (ty : mutex_type)
    (evs : list event) (r : result Z) :
  nni_mutexattr w = Some ty ->
  nni_mutex_init P mp w = (evs, r) ->
  exists rv w',
    evs = [Call (MutexInit (mx_of mp) (Some ty)) rv]
    /\ r = Done (if rv =? 0 then 0 else NNG_ENOMEM P) w'
    /\ allocated w' = allocated w
    /\ (rv = 0 -> mutexes w' !! mp = Some (fresh_mutex ty)).
Proof.
  intros Ha. unfold nni_mutex_init. run_unfold. rewrite Ha. ran.
  all: eexists _, _; split; [reflexivity|]; decide_codes.
  all: repeat split; try reflexivity; try congruence.
  all: intros _; apply lookup_insert_eq.
Qed.

Lemma nni_mutex_create_cases (P : platform) (w : world) (evs : list event)
    (r : result (Z * option positive)) :
  nni_mutex_create P w = (evs, r) ->
  (retval r = Some (NNG_ENOMEM P, None) <->
     alloc_failed evs = true \/ failed is_mutexattr_init evs = true \/
     (failed is_mutex_init evs = true /\ failed is_mutexattr_destroy evs = false))
  /\ (panics r <->
        failed is_mutexattr_settype evs = true \/ failed is_mutexattr_destroy evs = true)
  /\ ((exists m, retval r = Some (0, Some m)) <->
        alloc_failed evs = false /\ failed is_pthread evs = false).
Proof.
  unfold nni_mutex_create. ran.
  all: unfold panics; table.
Qed.


Lemma nni_mutex_create_success (P : platform) (w w' : world) (evs : list event)
    (rv : Z) (m : positive) :
  nni_mutex_create P w = (evs, Done (rv, Some m) w') ->
  rv = 0
  /\ mutexes w' !! m = Some (fresh_mutex PTHREAD_MUTEX_ERRORCHECK)
  /\ allocated w' !! m = Some (sizeof_nni_mutex P)
  /\ In (Call (MutexInit (mx_of m) (Some PTHREAD_MUTEX_ERRORCHECK)) 0) evs.
Proof.
  unfold nni_mutex_create. ran.
  all: repeat split; try apply lookup_insert_eq; cbn; auto 10.
Qed.

(** What the error-checking type buys: the two misuses come back from the
    native call as errors, which [nni_mutex_enter] and [nni_mutex_exit] turn
    into a panic; with the default type the same calls are undefined. *)
Lemma errorcheck_detects (m : positive) (w : world) (mu : pthread_mutex) :
  mutexes w !! m = Some mu ->
  mx_type mu = PTHREAD_MUTEX_ERRORCHECK ->
  (mx_owner mu = Some (self w) ->
     nni_mutex_enter m w =
       ([Call (MutexLock (mx_of m)) EDEADLK], Panicked "pthread_mutex_lock failed"))
  /\ (mx_owner mu <> Some (self w) ->
       nni_mutex_exit m w =
         ([Call (MutexUnlock (mx_of m)) EPERM], Panicked "pthread_mutex_unlock failed")).
Proof.
  intros Hm Hty. unfold nni_mutex_enter, nni_mutex_exit. run_unfold.
  rewrite Hm. unfold lock_mutex, unlock_mutex. rewrite Hty. split; intros Ho.
  - rewrite Ho, Nat.eqb_refl. reflexivity.
  - destruct (mx_owner mu) as [o|]; [|reflexivity].
    destruct (Nat.eqb_spec o (self w)); [congruence | reflexivity].
Qed.

Lemma default_type_undefined (m : positive) (w : world) (mu : pthread_mutex) :
  mutexes w !! m = Some mu ->
  mx_type mu = PTHREAD_MUTEX_DEFAULT ->
  (mx_owner mu = Some (self w) -> snd (nni_mutex_enter m w) = Undefined)
  /\ (mx_owner mu = None -> snd (nni_mutex_exit m w) = Undefined).
Proof.
  intros Hm Hty. unfold nni_mutex_enter, nni_mutex_exit. run_unfold.
  rewrite Hm. unfold lock_mutex, unlock_mutex. rewrite Hty. split; intros Ho.
  - rewrite Ho, Nat.eqb_refl. reflexivity.
  - rewrite Ho. reflexivity.
Qed.

(** ** Locking *)

Lemma nni_mutex_tryenter_run (P : platform) (m : positive) (w : world)
    (mu : pthread_mutex) :
  mutexes w !! m = Some mu ->
  mx_type mu <> PTHREAD_MUTEX_RECURSIVE ->
  nni_mutex_tryenter P m w =
    match mx_owner mu with
    | Some _ => ([Call (MutexTrylock (mx_of m)) EBUSY], Done (NNG_EBUSY P) w)
    | None => ([Call (MutexTrylock (mx_of m)) 0],
               Done 0 (put_mutex (mx_of m) (take (self w) mu) w))
    end.
Proof.
  intros Hm Hty. unfold nni_mutex_tryenter. run_unfold. rewrite Hm.
  unfold trylock_mutex.
  destruct (mx_owner mu) as [o|]; [|reflexivity].
  destruct (Nat.eqb o (self w)); [|reflexivity].
  destruct (mx_type mu); try reflexivity. congruence.
Qed.

Lemma nni_mutex_tryenter_total (P : platform) (m : positive) (w : world) :
  snd (nni_mutex_tryenter P m w) <> Blocked
  /\ ~ panics (snd (nni_mutex_tryenter P m w)).
Proof.
  unfold nni_mutex_tryenter, panics. run_unfold. unfold trylock_mutex.
  destruct (mutexes w !! m) as [mu|]; cbn; [|split; [congruence | intros [? ?]; congruence]].
  destruct (mx_owner mu) as [o|]; [destruct (Nat.eqb o (self w)); [destruct (mx_type mu)|]|].
  all: cbn; split; [congruence | intros [? ?]; congruence].
Qed.

(** The blocking lock and the unlock return to the caller only after a
    native call that returned 0. *)
Lemma nni_mutex_enter_exit_fatal (m : positive) (w : world) (evs : list event)
    (r : result unit) :
  nni_mutex_enter m w = (evs, r) \/ nni_mutex_exit m w = (evs, r) ->
  failed is_pthread evs = true -> panics r.
Proof.
  unfold nni_mutex_enter, nni_mutex_exit, panics.
  intros [H|H]; revert H; run_unfold; unfold lock_mutex, unlock_mutex.
  all: destruct (mutexes w !! m) as [mu|]; cbn; [|intros [= <- <-]; discriminate].
  all: destruct (mx_owner mu) as [o|]; [destruct (Nat.eqb o (self w))|].
  all: destruct (mx_type mu); destruct (mx_depth mu) as [|[|?]]; cbn.
  all: intros [= <- <-]; cbn; intros; try discriminate; eauto.
Qed.

(** ** Timed wait *)

Lemma nni_cond_timedwait_run (P : platform) (c : positive) (usec : Z) (w : world)
    (cv : pthread_cond) (mx : mutex_ref) :
  load_cond_cv c w = Some cv ->
  load_cond_mx c w = Some mx ->
  let t := (usec + clock w mod 2 ^ 64) mod 2 ^ 64 in
  exists rv w',
    nni_cond_timedwait P c usec w =
      ([Call (CondTimedwait c mx (deadline_code t)) rv],
       if rv =? ETIMEDOUT P then Done (NNG_ETIMEDOUT P) w'
       else if rv =? 0 then Done 0 w'
       else Panicked "pthread_cond_timedwait returned %d").
Proof.
  intros Hcv Hmx t. unfold nni_cond_timedwait, deadline_code. run_unfold.
  rewrite Hmx, Hcv. fold t.
  destruct (tape w) as [|rv l].
  - exists 0, w. destruct (0 =? ETIMEDOUT P); reflexivity.
  - exists rv, (set_tape l w).
    destruct (rv =? ETIMEDOUT P); [reflexivity|].
    destruct (rv =? 0); reflexivity.
Qed.

(** ** The clock attribute *)



(** A failed first computation: the lock is released, nothing else has
    changed, and the tape has moved by the one result consumed. *)
Lemma nni_cond_attr_fails (P : platform) (fuel : nat) (w : world) (rv : Z)
    (rest : list Z) :
  wall_clock_build P = false ->
  static_init w = 0 ->
  static_mx w = PTHREAD_MUTEX_INITIALIZER ->
  tape w = rv :: rest ->
  rv <> 0 ->
  nni_cond_attr P (S fuel) w =
    ([Call (MutexLock static_mx_ref) 0; Call CondattrInit rv;
      Call (MutexUnlock static_mx_ref) 0],
     Done (NNG_ENOMEM P, None) (set_tape rest w)).
Proof.
  intros Hb Hi Hmx Ht Hrv. unfold nni_cond_attr, nni_cond_attr_body. rewrite Hb.
  apply Z.eqb_neq in Hrv.
  repeat (run_unfold;
          first [rewrite Hi | rewrite Hmx | rewrite Ht | rewrite Hrv
                | rewrite Nat.eqb_refl]).
  do 3 f_equal. destruct w; cbn in *; subst; reflexivity.
Qed.

(** A first computation that the platform lets through. *)
Lemma nni_cond_attr_computes (P : platform) (fuel : nat) (w : world) :
  wall_clock_build P = false ->
  static_init w = 0 ->
  static_mx w = PTHREAD_MUTEX_INITIALIZER ->
  hd 0 (tape w) = 0 ->
  hd 0 (tl (tape w)) = 0 ->
  exists w',
    nni_cond_attr P (S (S fuel)) w =
      ([Call (MutexLock static_mx_ref) 0; Call CondattrInit 0;
        Call (CondattrSetclock (NNG_USE_CLOCKID P)) 0;
        Call (MutexUnlock static_mx_ref) 0],
       Done (0, Some attr_static) w')
    /\ static_init w' = 1
    /\ static_attr w' = Some {| ca_clock := NNG_USE_CLOCKID P |}
    /\ static_mx w' = PTHREAD_MUTEX_INITIALIZER
    /\ tape w' = tl (tl (tape w)).
Proof.
  intros Hb Hi Hmx H1 H2. unfold nni_cond_attr, nni_cond_attr_body. rewrite Hb.
  repeat (run_unfold; first [rewrite Hi | rewrite Hmx]).
  destruct (tape w) as [|a [|b l]] eqn:Ht; cbn in H1, H2; subst.
  all: repeat (run_unfold; first [rewrite Ht | rewrite Nat.eqb_refl]).
  all: eexists; split; [reflexivity|]; cbn; rewrite ?Ht; auto.
Qed.

(** Everything the rest of the development needs to know about a call of
    [nni_cond_attr], in any state and any build. *)
Lemma nni_cond_attr_summary (P : platform) (fuel : nat) (w : world)
    (evs : list event) (r : result (Z * option condattr_ptr)) :
  nni_cond_attr P fuel w = (evs, r) ->
  attr_calls_only evs = true
  /\ (computations evs + match final r with Some w' => budget w' | None => 0 end
       <= budget w)%nat
  /\ (forall w', final r = Some w' ->
        allocated w' = allocated w /\ conds w' = conds w /\ mutexes w' = mutexes w
        /\ (static_init w <> 0 -> w' = w /\ evs = []))
  /\ (forall rv out, retval r = Some (rv, out) ->
        (rv, out) = (0, Some (resolved P)) \/ (rv, out) = (NNG_ENOMEM P, None))
  /\ (failed is_condattr_init evs = true <-> retval r = Some (NNG_ENOMEM P, None))
  /\ ((2 <= fuel)%nat -> r <> OutOfFuel)
  /\ (wall_clock_build P = false -> forall rv a w', r = Done (rv, Some a) w' ->
        static_init w' <> 0
        /\ (static_init w = 0 ->
             static_attr w' = Some {| ca_clock := NNG_USE_CLOCKID P |})).
Proof.
  unfold nni_cond_attr, nni_cond_attr_body, resolved, budget.
  destruct (wall_clock_build P).
  { intros [= <- <-]. cbn. repeat split; intros; simplify_eq; auto; congruence. }
  destruct fuel as [|[|fuel]]; ran.
  all: repeat match goal with
         | H : static_init _ = 0 |- _ => rewrite H
         | H : static_init _ <> 0 |- _ => rewrite (proj2 (Z.eqb_neq _ _) H)
         end; cbn.
  all: repeat split; intros; simplify_eq; auto; try congruence; try lia.
  all: destruct (static_init w =? 0); lia.
Qed.

(** ** Event logs of consecutive calls *)

Lemma failed_app (k : native -> bool) (e1 e2 : list event) :
  failed k (e1 ++ e2) = failed k e1 || failed k e2.
Proof. apply existsb_app. Qed.

Lemma alloc_failed_app (e1 e2 : list event) :
  alloc_failed (e1 ++ e2) = alloc_failed e1 || alloc_failed e2.
Proof. apply existsb_app. Qed.


Lemma attr_calls_only_facts (evs : list event) :
  attr_calls_only evs = true ->
  alloc_failed evs = false
  /\ failed is_cond_init evs = false
  /\ (forall sz rv, ~ In (Call (Alloc sz) rv) evs).
Proof.
  unfold attr_calls_only, alloc_failed, failed.
  induction evs as [|[f rv] evs IH]; cbn.
  - intros _. repeat split. intros ? ? [].
  - intros H. apply andb_prop in H as [Hf H]. destruct (IH H) as (IH1 & IH2 & IH3).
    rewrite IH1, IH2.
    destruct f; try discriminate; cbn; repeat split.
    all: intros sz rv' [Heq|Hin]; [discriminate | exact (IH3 _ _ Hin)].
Qed.

Lemma fresh_not_live (a : gmap positive Z) : a !! fresh (dom a) = None.
Proof. apply not_elem_of_dom, is_fresh. Qed.

Lemma alloc_free_balance (a : gmap positive Z) (sz : Z) :
  delete (fresh (dom a)) (<[fresh (dom a) := sz]> a) = a.
Proof. apply delete_insert_id, fresh_not_live. Qed.

Lemma released_after (e1 mid : list event) (sz : Z) (p : positive) :
  (forall sz' rv, ~ In (Call (Alloc sz') rv) e1) ->
  (forall sz' rv, ~ In (Call (Alloc sz') rv) mid) ->
  released_at_return (e1 ++ Call (Alloc sz) (Z.pos p) :: mid ++ [Call (Free p sz) 0]).
Proof.
  intros H1 Hmid sz' p' Hin.
  apply in_app_or in Hin as [Hin|[Heq|Hin]].
  - destruct (H1 _ _ Hin).
  - injection Heq as <- <-.
    exists (e1 ++ Call (Alloc sz) (Z.pos p) :: mid).
    rewrite <- app_assoc. reflexivity.
  - apply in_app_or in Hin as [Hin|[Heq|[]]]; [|discriminate].
    destruct (Hmid _ _ Hin).
Qed.

Ltac no_alloc :=
  let H := fresh in
  intros ? ? H; cbn in H;
  repeat (destruct H as [H|H]; [discriminate|]); destruct H.

Lemma nni_cond_create_summary (P : platform) (fuel : nat) (mx : positive) (w : world)
    (evs : list event) (r : result (Z * option positive)) :
  NNG_ENOMEM P <> 0 ->
  nni_cond_create P fuel mx w = (evs, r) ->
  (retval r = Some (NNG_ENOMEM P, None) <->
     failed is_condattr_init evs = true \/ alloc_failed evs = true \/
     failed is_cond_init evs = true)
  /\ (forall rv out, retval r = Some (rv, out) ->
        (rv, out) = (NNG_ENOMEM P, None) \/ exists c, (rv, out) = (0, Some c))
  /\ ((2 <= fuel)%nat -> r <> OutOfFuel)
  /\ (forall rv c w', r = Done (rv, Some c) w' ->
        exists clk,
          clock_of P (resolved P) w' = Some clk
          /\ conds w' !! c = Some {| cond_cv := Some {| cv_clock := clk |};
                                     cond_mx := Some (mx_of mx) |}
          /\ allocated w' !! c = Some (sizeof_nni_cond P)
          /\ allocated w !! c = None
          /\ In (Call (CondInit c (resolved P)) 0) evs)
  /\ (forall rv w', r = Done (rv, None) w' ->
        allocated w' = allocated w /\ released_at_return evs).
Proof.
  intros Hnz. unfold nni_cond_create. run_unfold.
  destruct (nni_cond_attr P fuel w) as [e1 r1] eqn:Hattr.
  destruct (nni_cond_attr_summary _ _ _ _ _ Hattr)
    as (Hev & _ & Hframe & Hres & Hci & Hfuel & _).
  destruct (attr_calls_only_facts _ Hev) as (Hna & Hnc & Hnin).
  destruct (failed is_condattr_init e1) eqn:Hf;
    [pose proof (proj1 Hci eq_refl) as Hr
    |assert (retval r1 <> Some (NNG_ENOMEM P, None)) as Hr
       by (intros Hr; apply Hci in Hr; discriminate)].
  all: destruct r1 as [[rv attrp] w1| | | |]; cbn [retval final] in *;
    try discriminate.
  all: try (intros [= <- <-]; cbn; rewrite ?Hna, ?Hnc, ?Hf;
            repeat split; auto; table; fail).
  - injection Hr as -> ->. apply Z.eqb_neq in Hnz. rewrite Hnz. cbn.
    intros [= <- <-]. rewrite app_nil_r, Hf. cbn.
    destruct (Hframe _ eq_refl) as (Ha & _).
    repeat split; auto; try (table; fail).
    intros sz p Hin. destruct (Hnin _ _ Hin).
  - destruct (Hres _ _ eq_refl) as [[= -> ->] | [= -> ->]]; [|congruence].
    destruct (Hframe _ eq_refl) as (Ha & _).
    ran.
    all: rewrite ?failed_app, ?alloc_failed_app, ?Hf, ?Hna, ?Hnc; cbn.
    all: decide_codes; cbn.
    all: repeat split; try (table; fail).
    all: try (apply (released_after e1 [_]); [assumption | no_alloc]).
    all: try (intros sz p [Hin|[Hin|[]]]%in_app_or;
              [destruct (Hnin _ _ Hin) | discriminate]).
    all: intros; simplify_eq.
    all: unfold clock_of in *; cbn in *.
    all: rewrite ?Ha, ?alloc_free_balance; auto.
    all: eexists; rewrite ?lookup_insert_eq, ?fresh_not_live.
    all: repeat split; try eassumption; try reflexivity.
    all: apply in_or_app; right; cbn; auto.
  - intros [= <- <-]. cbn. rewrite Hna, Hnc, Hf.
    repeat split; auto; try (table; fail).
    intros Hge. destruct (Hfuel Hge eq_refl).
Qed.



(** ** Processes *)





Lemma fresh_other (a : gmap positive Z) (c : positive) (sz : Z) :
  a !! c = Some sz -> fresh (dom a) <> c.
Proof. intros Hc Heq. rewrite <- Heq, fresh_not_live in Hc. discriminate. Qed.

Ltac other_keys :=
  repeat first
    [ rewrite lookup_insert_ne by first [eapply fresh_other; eassumption | congruence]
    | rewrite lookup_delete_ne by first [eapply fresh_other; eassumption | congruence] ];
  repeat match goal with
         | H : conds _ !! _ = _ |- _ => rewrite H
         end.

Lemma call_keeps_cond (P : platform) (fuel : nat) (a : api) (w : world)
    (evs : list event) (r : result unit) (c : positive) (sz : Z) :
  destroys c a = false ->
  allocated w !! c = Some sz ->
  call P fuel a w = (evs, r) ->
  forall w', final r = Some w' ->
    allocated w' !! c = Some sz /\ load_cond_mx c w' = load_cond_mx c w.
Proof.
  intros Hd Hc. destruct a; unfold call, drop; cbn in Hd.
  8:{ unfold nni_cond_create. run_unfold.
      destruct (nni_cond_attr P fuel w) as [e1 r1] eqn:Hattr.
      destruct (nni_cond_attr_summary _ _ _ _ _ Hattr) as (_ & _ & Hframe & _).
      destruct r1 as [[rv attrp] w1| | | |]; cbn [retval final] in *.
      2-5: intros [= <- <-]; discriminate.
      destruct (Hframe _ eq_refl) as (Ha & Hcs & _).
      rewrite <- Ha in Hc. rewrite <- Hcs.
      ran. all: cbn [final] in *; simplify_eq; run_cbn; other_keys; auto. }
  all: unfold nni_mutex_init, nni_mutex_fini, nni_mutex_create, nni_mutex_destroy,
    nni_mutex_enter, nni_mutex_exit, nni_mutex_tryenter, nni_cond_destroy,
    nni_cond_signal, nni_cond_broadcast, nni_cond_wait, nni_cond_timedwait.
  all: try apply Pos.eqb_neq in Hd.
  all: ran.
  all: cbn [final] in *; simplify_eq; run_cbn; other_keys; auto.
Qed.

Lemma process_keeps_cond (P : platform) (fuel : nat) (c : positive) (sz : Z)
    (prog : list api) :
  forall (w : world) (evs : list event) (r : result unit),
    forallb (fun a => negb (destroys c a)) prog = true ->
    allocated w !! c = Some sz ->
    process P fuel prog w = (evs, r) ->
    forall w', final r = Some w' ->
      allocated w' !! c = Some sz /\ load_cond_mx c w' = load_cond_mx c w.
Proof.
  induction prog as [|a prog IH]; intros w evs r Hd Hc; cbn [process].
  - intros [= <- <-] w' [= <-]. auto.
  - cbn in Hd. apply andb_prop in Hd as [Hd1 Hd]. apply negb_true_iff in Hd1.
    unfold bind. destruct (call P fuel a w) as [e1 r1] eqn:Hcall.
    pose proof (call_keeps_cond _ _ _ _ _ _ _ _ Hd1 Hc Hcall) as Hk.
    destruct r1 as [[] w1| | | |]; cbn [final] in Hk.
    2-5: intros [= <- <-]; discriminate.
    destruct (Hk _ eq_refl) as [Hc1 Hmx1].
    destruct (process P fuel prog w1) as [e2 r2] eqn:Hp.
    intros [= <- <-] w' Hw'.
    destruct (IH _ _ _ Hd Hc1 Hp _ Hw') as [? ?]. split; congruence.
Qed.

Lemma nni_mutex_create_failure (P : platform) (w w' : world) (evs : list event)
    (rv : Z) :
  nni_mutex_create P w = (evs, Done (rv, None) w') ->
  rv = NNG_ENOMEM P /\ allocated w' = allocated w /\ released_at_return evs.
Proof.
  unfold nni_mutex_create. ran.
  all: repeat split; rewrite ?alloc_free_balance; auto.
  all: try (apply (released_after [] [_]); [intros ? ? []| no_alloc]).
  all: try (apply (released_after [] [_; _; _; _]); [intros ? ? []| no_alloc]).
  all: intros sz p [Hin|[]]; discriminate.
Qed.

(** ** The deadline arithmetic *)

Lemma deadline_code_seconds (t : Z) : tv_sec (deadline_code t) = tv_sec (deadline_spec t).
Proof. reflexivity. Qed.

Lemma deadline_code_nsec (t : Z) :
  tv_nsec (deadline_code t) = tv_nsec (deadline_spec t) <-> t mod 1000000 < 10000.
Proof.
  unfold deadline_code, deadline_spec. cbn [tv_nsec].
  assert (t mod 10000 = (t mod 1000000) mod 10000) as Hm.
  { symmetry. apply Z.mod_mod_divide. exists 100. reflexivity. }
  pose proof (Z.mod_pos_bound t 1000000 ltac:(lia)).
  pose proof (Z.mod_pos_bound (t mod 1000000) 10000 ltac:(lia)).
  split; intros H'.
  - assert (t mod 10000 = t mod 1000000) by lia. lia.
  - rewrite Hm, (Z.mod_small (t mod 1000000) 10000) by lia. reflexivity.
Qed.

(** * The claims *)

(** C1 (defect in the code).  The claim has the nanoseconds field equal to
    [(t mod 1000000) * 1000]; the code takes the remainder by 10000.  With
    the clock at 0 and an offset of 1500000 microseconds the deadline handed
    to [pthread_cond_timedwait] is 1 s + 0 ns, where the claim (and the
    spec's own note on the arithmetic) has 1 s + 500000000 ns. *)
Theorem nni_cond_timedwait_nsec_defect :
  fst (nni_cond_timedwait linux_monotonic 2 1500000 (with_cond [] 0))
  = [Call (CondTimedwait 2 (mx_of 1) {| tv_sec := 1; tv_nsec := 0 |}) 0]
  /\ deadline_spec (0 + 1500000) = {| tv_sec := 1; tv_nsec := 500000000 |}.
Proof. split; reflexivity. Qed.

(** C2, as stated, fails: the allocation succeeds, [pthread_mutexattr_init]
    fails, and the call returns NNG_ENOMEM instead of terminating the
    process, although neither the allocation nor the native mutex
    initialisation failed. *)
Lemma nni_mutex_create_attr_init_recoverable :
  ~ mutex_create_claim linux_monotonic (boot [0; 12] 0 None).
Proof.
  unfold mutex_create_claim. rewrite mutex_create_attr_init_fails. cbn.
  intros [_ H]. destruct (H (or_introl eq_refl)) as [msg Hm]. discriminate.
Qed.

(** C2 (amended).  [nni_mutex_create] returns NNG_ENOMEM, storing nothing
    through [mp], exactly when the allocation fails, or
    [pthread_mutexattr_init] fails, or [pthread_mutex_init] fails and the
    attribute object is then destroyed without error; it terminates the
    process exactly when [pthread_mutexattr_settype] or
    [pthread_mutexattr_destroy] fails; it returns 0 and stores the handle
    exactly when nothing failed. *)
Theorem nni_mutex_create_outcomes (P : platform) (w : world) (evs : list event)
    (r : result (Z * option positive)) :
  nni_mutex_create P w = (evs, r) ->
  (retval r = Some (NNG_ENOMEM P, None) <->
     alloc_failed evs = true \/ failed is_mutexattr_init evs = true \/
     (failed is_mutex_init evs = true /\ failed is_mutexattr_destroy evs = false))
  /\ (panics r <->
        failed is_mutexattr_settype evs = true \/ failed is_mutexattr_destroy evs = true)
  /\ ((exists m, retval r = Some (0, Some m)) <->
        alloc_failed evs = false /\ failed is_pthread evs = false).
Proof.
  unfold nni_mutex_create. ran.
  all: unfold panics; table.
Qed.

Lemma nni_mutex_create_outcomes_witness :
  retval (snd (nni_mutex_create linux_monotonic (boot [0; 12] 0 None)))
    = Some (NNG_ENOMEM linux_monotonic, None)
  /\ panics (snd (nni_mutex_create linux_monotonic (boot [0; 0; 22] 0 None))).
Proof.
  split.
  - apply (nni_mutex_create_outcomes linux_monotonic (boot [0; 12] 0 None) _ _
             (surjective_pairing _)).
    right. left. reflexivity.
  - apply (nni_mutex_create_outcomes linux_monotonic (boot [0; 0; 22] 0 None) _ _
             (surjective_pairing _)).
    left. reflexivity.
Defined.

(** C3.  On a mutex of this layer (any type but recursive) that is
    initialised, [nni_mutex_tryenter] returns NNG_EBUSY when the mutex is
    held, leaving it as it is, and otherwise takes it and returns 0.  On any
    handle in any world it neither suspends the thread nor panics.  The
    blocking lock and the unlock have no such path: after a native error
    they never return. *)
Theorem nni_mutex_tryenter_busy_or_taken (P : platform) (m : positive) (w : world)
    (mu : pthread_mutex) :
  mutexes w !! m = Some mu ->
  mx_type mu <> PTHREAD_MUTEX_RECURSIVE ->
  nni_mutex_tryenter P m w =
    match mx_owner mu with
    | Some _ => ([Call (MutexTrylock (mx_of m)) EBUSY], Done (NNG_EBUSY P) w)
    | None => ([Call (MutexTrylock (mx_of m)) 0],
               Done 0 (put_mutex (mx_of m) (take (self w) mu) w))
    end
  /\ (forall m' w', snd (nni_mutex_tryenter P m' w') <> Blocked
                    /\ ~ panics (snd (nni_mutex_tryenter P m' w')))
  /\ (forall m' w' evs r,
        nni_mutex_enter m' w' = (evs, r) \/ nni_mutex_exit m' w' = (evs, r) ->
        failed is_pthread evs = true -> panics r).
Proof.
  intros Hm Hty. split; [|split].
  - apply nni_mutex_tryenter_run; assumption.
  - intros m' w'. apply nni_mutex_tryenter_total.
  - intros m' w' evs r. apply nni_mutex_enter_exit_fatal.
Qed.

Lemma nni_mutex_tryenter_busy_or_taken_witness :
  snd (nni_mutex_tryenter linux_monotonic 1 (with_mutex [] 0)) =
    Done 0 (put_mutex (mx_of 1)
              (take 1%nat (fresh_mutex PTHREAD_MUTEX_ERRORCHECK)) (with_mutex [] 0))
  /\ snd (nni_mutex_tryenter linux_monotonic 1 (with_held_mutex [] 0))
     = Done (NNG_EBUSY linux_monotonic) (with_held_mutex [] 0).
Proof.
  split.
  - rewrite (proj1 (nni_mutex_tryenter_busy_or_taken linux_monotonic 1
                      (with_mutex [] 0) (fresh_mutex PTHREAD_MUTEX_ERRORCHECK)
                      eq_refl ltac:(discriminate))).
    reflexivity.
  - rewrite (proj1 (nni_mutex_tryenter_busy_or_taken linux_monotonic 1
                      (with_held_mutex [] 0)
                      (take 2%nat (fresh_mutex PTHREAD_MUTEX_ERRORCHECK))
                      eq_refl ltac:(discriminate))).
    reflexivity.
Defined.





(** C6, as stated, fails: in a monotonic-clock build whose static attribute
    is not yet computed, [pthread_condattr_init] fails and
    [nni_cond_create] returns NNG_ENOMEM before it allocates anything or
    initialises a condition variable. *)
Lemma nni_cond_create_attr_failure :
  ~ cond_create_claim linux_monotonic 2 1 (with_mutex [12] 0).
Proof.
  unfold cond_create_claim. rewrite cond_create_attr_init_fails. cbn.
  intros [H _]. destruct (H eq_refl); discriminate.
Qed.

(** C6 (amended).  With NNG_ENOMEM different from 0 and fuel for the loop
    of [nni_cond_attr]: [nni_cond_create] fails with NNG_ENOMEM, storing
    nothing through [cvp], exactly when the clock attribute cannot be
    initialised, or the allocation fails, or the native condition variable
    fails to initialise, and it returns nothing else but 0 with a handle.  On
    success the new object records the native lock of the mutex that was
    passed, its native condition variable is initialised through the
    attribute pointer the build resolves to, and no later call of the
    process, short of destroying the handle, changes the recorded mutex. *)
Theorem nni_cond_create_outcomes (P : platform) (fuel : nat) (mx : positive)
    (w : world) (evs : list event) (r : result (Z * option positive)) :
  NNG_ENOMEM P <> 0 ->
  (2 <= fuel)%nat ->
  nni_cond_create P fuel mx w = (evs, r) ->
  r <> OutOfFuel
  /\ (retval r = Some (NNG_ENOMEM P, None) <->
        failed is_condattr_init evs = true \/ alloc_failed evs = true \/
        failed is_cond_init evs = true)
  /\ (forall rv out, retval r = Some (rv, out) ->
        (rv, out) = (NNG_ENOMEM P, None) \/ exists c, (rv, out) = (0, Some c))
  /\ (forall rv c w', r = Done (rv, Some c) w' ->
        (exists clk,
           clock_of P (resolved P) w' = Some clk
           /\ conds w' !! c = Some {| cond_cv := Some {| cv_clock := clk |};
                                      cond_mx := Some (mx_of mx) |}
           /\ In (Call (CondInit c (resolved P)) 0) evs)
        /\ forall prog evs' r' w'',
             forallb (fun a => negb (destroys c a)) prog = true ->
             process P fuel prog w' = (evs', r') ->
             final r' = Some w'' ->
             load_cond_mx c w'' = Some (mx_of mx)).
Proof.
  intros Hnz Hge Hrun.
  destruct (nni_cond_create_summary _ _ _ _ _ _ Hnz Hrun)
    as (Hiff & Hshape & Hfuel & Hok & _).
  split; [exact (Hfuel Hge)|]. split; [exact Hiff|]. split; [exact Hshape|].
  intros rv c w' Hdone.
  destruct (Hok _ _ _ Hdone) as (clk & Hclk & Hc & Ha & _ & Hin).
  split; [eauto|].
  intros prog evs' r' w'' Hd Hp Hw''.
  destruct (process_keeps_cond _ _ _ _ _ _ _ _ Hd Ha Hp _ Hw'') as [_ ->].
  unfold load_cond_mx. rewrite Hc. reflexivity.
Qed.

Lemma nni_cond_create_outcomes_witness :
  retval (snd (nni_cond_create linux_monotonic 2 1 (with_mutex [12] 0)))
    = Some (NNG_ENOMEM linux_monotonic, None)
  /\ load_cond_mx 2
       (with_cond [] 0) = Some (mx_of 1).
Proof.
  split.
  - apply (nni_cond_create_outcomes linux_monotonic 2 1 (with_mutex [12] 0) _ _
             ltac:(discriminate) (le_n 2) (surjective_pairing _)).
    left. reflexivity.
  - destruct (nni_cond_create_outcomes linux_monotonic 2 1
                (with_mutex [0; 0; 0; 0] 0) _ _
                ltac:(discriminate) (le_n 2) (surjective_pairing _))
      as (_ & _ & _ & Hok).
    destruct (Hok 0 2%positive (with_cond [] 0) eq_refl) as [_ Hkeep].
    exact (Hkeep [] [] (Done tt (with_cond [] 0)) (with_cond [] 0)
             eq_refl eq_refl eq_refl).
Defined.

(** C7.  With the shared attribute object initialised, [nni_mutex_init]
    makes exactly one native call, [pthread_mutex_init] on the caller's
    storage, and no allocation; it returns NNG_ENOMEM when that call fails
    and 0 otherwise. *)
Theorem nni_mutex_init_outcomes (P : platform) (mp : positive) (w : world)
    (ty : mutex_type) (evs : list event) (r : result Z) :
  nni_mutexattr w = Some ty ->
  nni_mutex_init P mp w = (evs, r) ->
  exists rv w',
    evs = [Call (MutexInit (mx_of mp) (Some ty)) rv]
    /\ r = Done (if rv =? 0 then 0 else NNG_ENOMEM P) w'
    /\ allocated w' = allocated w.
Proof.
  intros Ha Hrun.
  destruct (nni_mutex_init_run P mp w ty evs r Ha Hrun) as (rv & w' & ? & ? & ? & _).
  eauto.
Qed.

Lemma nni_mutex_init_outcomes_witness :
  exists rv w',
    fst (nni_mutex_init linux_monotonic 9 (with_mutex [12] 0))
      = [Call (MutexInit (mx_of 9) (Some PTHREAD_MUTEX_ERRORCHECK)) rv]
    /\ snd (nni_mutex_init linux_monotonic 9 (with_mutex [12] 0))
       = Done (if rv =? 0 then 0 else NNG_ENOMEM linux_monotonic) w'
    /\ allocated w' = allocated (with_mutex [12] 0).
Proof.
  apply (nni_mutex_init_outcomes linux_monotonic 9 (with_mutex [12] 0)
           PTHREAD_MUTEX_ERRORCHECK).
  - reflexivity.
  - apply surjective_pairing.
Defined.

(** C8.  A mutex that [nni_mutex_create] hands out is of the error-checking
    type.  So is one that [nni_mutex_init] initialises, given that the
    shared attribute object it passes was set up for error checking
    outside this file.  On such a mutex, locking it again from the thread
    that holds it and unlocking it from a thread that does not hold it come
    back from the native call as errors, and end in a panic. *)
Theorem mutexes_are_error_checking (P : platform) :
  (forall w evs rv m w',
     nni_mutex_create P w = (evs, Done (rv, Some m) w') ->
     exists mu, mutexes w' !! m = Some mu /\ mx_type mu = PTHREAD_MUTEX_ERRORCHECK)
  /\ (forall mp w evs r,
        nni_mutexattr_errorcheck w ->
        nni_mutex_init P mp w = (evs, r) ->
        failed is_mutex_init evs = false ->
        exists w' mu,
          r = Done 0 w' /\ mutexes w' !! mp = Some mu
          /\ mx_type mu = PTHREAD_MUTEX_ERRORCHECK)
  /\ (forall m w mu,
        mutexes w !! m = Some mu ->
        mx_type mu = PTHREAD_MUTEX_ERRORCHECK ->
        (mx_owner mu = Some (self w) ->
           nni_mutex_enter m w =
             ([Call (MutexLock (mx_of m)) EDEADLK],
              Panicked "pthread_mutex_lock failed"))
        /\ (mx_owner mu <> Some (self w) ->
             nni_mutex_exit m w =
               ([Call (MutexUnlock (mx_of m)) EPERM],
                Panicked "pthread_mutex_unlock failed"))).
Proof.
  split; [|split].
  - intros w evs rv m w' Hrun.
    destruct (nni_mutex_create_success _ _ _ _ _ _ Hrun) as (_ & Hm & _).
    eexists. split; [exact Hm | reflexivity].
  - intros mp w evs r Ha Hrun Hok.
    destruct (nni_mutex_init_run P mp w _ evs r Ha Hrun)
      as (rv & w' & -> & -> & _ & Hm).
    cbn in Hok. rewrite orb_false_r in Hok. apply negb_false_iff in Hok.
    rewrite Hok. apply Z.eqb_eq in Hok.
    eexists _, _. split; [reflexivity|]. split; [exact (Hm Hok) | reflexivity].
  - intros m w mu. apply errorcheck_detects.
Qed.

Lemma mutexes_are_error_checking_witness :
  (exists mu, mutexes (with_mutex [] 0) !! 1%positive = Some mu
              /\ mx_type mu = PTHREAD_MUTEX_ERRORCHECK)
  /\ (exists w' mu,
        snd (nni_mutex_init linux_monotonic 9 (with_mutex [] 0)) = Done 0 w'
        /\ mutexes w' !! 9%positive = Some mu
        /\ mx_type mu = PTHREAD_MUTEX_ERRORCHECK)
  /\ nni_mutex_exit 1 (with_mutex [] 0) =
       ([Call (MutexUnlock (mx_of 1)) EPERM], Panicked "pthread_mutex_unlock failed").
Proof.
  destruct (mutexes_are_error_checking linux_monotonic) as (Hc & Hi & Hd).
  split; [|split].
  - eapply (Hc (boot [] 0 (Some PTHREAD_MUTEX_ERRORCHECK)) _ 0 1%positive
               (with_mutex [] 0)).
    reflexivity.
  - apply (Hi 9%positive (with_mutex [] 0) _ _ eq_refl (surjective_pairing _)).
    reflexivity.
  - apply (Hd 1%positive (with_mutex [] 0) _ eq_refl eq_refl). discriminate.
Defined.

(** C9.  A constructor that returns an error code has stored nothing
    through its out-parameter; and whenever it has stored nothing, the
    allocator's live blocks are what they were before the call, and a block
    the call had allocated was released, with the size it was allocated
    with, by the last native call before the return. *)
Theorem constructors_fail_clean (P : platform) (fuel : nat) (mx : positive)
    (w : world) :
  (forall evs rv out w',
     nni_mutex_create P w = (evs, Done (rv, out) w') ->
     (rv <> 0 -> out = None)
     /\ (out = None -> allocated w' = allocated w /\ released_at_return evs))
  /\ (NNG_ENOMEM P <> 0 ->
      forall evs rv out w',
        nni_cond_create P fuel mx w = (evs, Done (rv, out) w') ->
        (rv <> 0 -> out = None)
        /\ (out = None -> allocated w' = allocated w /\ released_at_return evs)).
Proof.
  split.
  - intros evs rv out w' Hrun. split.
    + intros Hrv. destruct out as [m|]; [|reflexivity].
      destruct (nni_mutex_create_success _ _ _ _ _ _ Hrun) as (? & _). contradiction.
    + intros ->. destruct (nni_mutex_create_failure _ _ _ _ _ Hrun) as (_ & ? & ?).
      auto.
  - intros Hnz evs rv out w' Hrun.
    destruct (nni_cond_create_summary _ _ _ _ _ _ Hnz Hrun)
      as (_ & Hshape & _ & _ & Hfail).
    split.
    + intros Hrv.
      destruct (Hshape _ _ eq_refl) as [[= -> ->]|[c [= -> ->]]];
        [reflexivity | contradiction].
    + intros ->. exact (Hfail _ _ eq_refl).
Qed.

Lemma constructors_fail_clean_witness :
  released_at_return
    (fst (nni_mutex_create linux_monotonic (with_mutex [0; 0; 0; 12; 0] 0)))
  /\ released_at_return
       (fst (nni_cond_create linux_monotonic 2 1 (with_mutex [0; 0; 0; 12] 0))).
Proof.
  destruct (constructors_fail_clean linux_monotonic 2 1
              (with_mutex [0; 0; 0; 12; 0] 0)) as [Hmx _].
  destruct (constructors_fail_clean linux_monotonic 2 1
              (with_mutex [0; 0; 0; 12] 0)) as [_ Hcv].
  split.
  - refine (proj2 (proj2 (Hmx _ 2 None (with_mutex [] 0) _) eq_refl)).
    reflexivity.
  - refine (proj2 (proj2 (Hcv ltac:(discriminate) _ 2 None
                            (set_static_init 1
                               (set_static_attr (Some {| ca_clock := 1 |})
                                  (with_mutex [] 0))) _) eq_refl)).
    reflexivity.
Defined.

(** C10.  In a monotonic-clock build, with the static attribute not yet
    computed and the internal lock free: when [pthread_condattr_init] fails,
    [nni_cond_attr] returns NNG_ENOMEM without storing through [attrpp], and
    the world afterwards differs from the one before only by the consumed
    result: the internal lock is free again, the flag is still 0.  The next
    call therefore takes the lock and calls [pthread_condattr_init] again,
    and succeeds if the platform now lets it. *)
Theorem nni_cond_attr_failure_retried (P : platform) (fuel : nat) (w : world)
    (rv : Z) (rest : list Z) :
  wall_clock_build P = false ->
  (2 <= fuel)%nat ->
  static_init w = 0 ->
  static_mx w = PTHREAD_MUTEX_INITIALIZER ->
  tape w = rv :: rest ->
  rv <> 0 ->
  nni_cond_attr P fuel w =
    ([Call (MutexLock static_mx_ref) 0; Call CondattrInit rv;
      Call (MutexUnlock static_mx_ref) 0],
     Done (NNG_ENOMEM P, None) (set_tape rest w))
  /\ static_init (set_tape rest w) = 0
  /\ static_mx (set_tape rest w) = PTHREAD_MUTEX_INITIALIZER
  /\ (exists evs' r',
        nni_cond_attr P fuel (set_tape rest w) =
          (Call (MutexLock static_mx_ref) 0 :: Call CondattrInit (hd 0 rest) :: evs', r'))
  /\ (hd 0 rest = 0 -> hd 0 (tl rest) = 0 ->
      exists w',
        nni_cond_attr P fuel (set_tape rest w) =
          ([Call (MutexLock static_mx_ref) 0; Call CondattrInit 0;
            Call (CondattrSetclock (NNG_USE_CLOCKID P)) 0;
            Call (MutexUnlock static_mx_ref) 0],
           Done (0, Some attr_static) w')
        /\ static_init w' = 1).
Proof.
  intros Hb Hge Hi Hmx Ht Hrv.
  destruct fuel as [|[|fuel]]; [lia | lia |].
  split; [apply nni_cond_attr_fails; assumption|].
  split; [exact Hi|]. split; [exact Hmx|]. split.
  - unfold nni_cond_attr, nni_cond_attr_body. rewrite Hb.
    repeat (run_unfold; first [rewrite Hi | rewrite Hmx | rewrite Nat.eqb_refl]).
    destruct rest as [|rv2 rest2]; cbn [hd]; run.
    all: eexists _, _; reflexivity.
  - intros H1 H2.
    destruct (nni_cond_attr_computes P fuel (set_tape rest w) Hb Hi Hmx H1 H2)
      as (w' & Hrun & Hi' & _).
    eauto.
Qed.

Lemma nni_cond_attr_failure_retried_witness :
  nni_cond_attr linux_monotonic 2 (with_mutex [12; 0; 0] 0) =
    ([Call (MutexLock static_mx_ref) 0; Call CondattrInit 12;
      Call (MutexUnlock static_mx_ref) 0],
     Done (NNG_ENOMEM linux_monotonic, None) (with_mutex [0; 0] 0))
  /\ exists w',
       nni_cond_attr linux_monotonic 2 (with_mutex [0; 0] 0) =
         ([Call (MutexLock static_mx_ref) 0; Call CondattrInit 0;
           Call (CondattrSetclock 1) 0; Call (MutexUnlock static_mx_ref) 0],
          Done (0, Some attr_static) w')
       /\ static_init w' = 1.
Proof.
  destruct (nni_cond_attr_failure_retried linux_monotonic 2
              (with_mutex [12; 0; 0] 0) 12 [0; 0]
              eq_refl (le_n 2) eq_refl eq_refl eq_refl ltac:(discriminate))
    as (Hfirst & _ & _ & _ & Hagain).
  split; [exact Hfirst|]. exact (Hagain eq_refl eq_refl).
Defined.

(** * Further properties *)

(** ** Lifecycles *)

Lemma nni_mutex_create_block (P : platform) (w w' : world) (evs : list event)
    (rv : Z) (m : positive) :
  nni_mutex_create P w = (evs, Done (rv, Some m) w') ->
  allocated w !! m = None
  /\ allocated w' = <[m := sizeof_nni_mutex P]> (allocated w)
  /\ mutexes w' = <[m := fresh_mutex PTHREAD_MUTEX_ERRORCHECK]> (mutexes w)
  /\ conds w' = conds w.
Proof.
  unfold nni_mutex_create. ran.
  all: repeat split; auto using fresh_not_live.
Qed.

Lemma nni_mutex_destroy_run (P : platform) (m : positive) (w : world)
    (mu : pthread_mutex) (evs : list event) (r : result unit) :
  mutexes w !! m = Some mu ->
  nni_mutex_destroy P m w = (evs, r) ->
  (exists rv, rv <> 0
     /\ evs = [Call (MutexDestroy (mx_of m)) rv]
     /\ r = Panicked "pthread_mutex_destroy failed")
  \/ (exists w', evs = [Call (MutexDestroy (mx_of m)) 0;
                        Call (Free m (sizeof_nni_mutex P)) 0]
        /\ r = Done tt w'
        /\ mx_owner mu = None
        /\ allocated w' = delete m (allocated w)
        /\ mutexes w' = delete m (mutexes w)
        /\ conds w' = delete m (conds w)).
Proof.
  intros Hm. unfold nni_mutex_destroy. run_unfold. rewrite Hm. ran.
  all: try solve [left; eexists; split; [|split; reflexivity];
                  first [assumption | discriminate]].
  all: right; eexists; repeat split; auto.
  all: cbn; apply delete_delete_eq.
Qed.

Lemma nni_mutex_fini_run (mp : positive) (w : world) (mu : pthread_mutex)
    (evs : list event) (r : result unit) :
  mutexes w !! mp = Some mu ->
  nni_mutex_fini mp w = (evs, r) ->
  (exists rv, rv <> 0
     /\ evs = [Call (MutexDestroy (mx_of mp)) rv]
     /\ r = Panicked "pthread_mutex_destroy failed: %s")
  \/ (exists w', evs = [Call (MutexDestroy (mx_of mp)) 0]
        /\ r = Done tt w'
        /\ mx_owner mu = None
        /\ allocated w' = allocated w
        /\ mutexes w' = delete mp (mutexes w)
        /\ conds w' = conds w).
Proof.
  intros Hm. unfold nni_mutex_fini. run_unfold. rewrite Hm. ran.
  all: try solve [left; eexists; split; [|split; reflexivity];
                  first [assumption | discriminate]].
  all: right; eexists; repeat split; auto.
Qed.

Lemma nni_cond_create_block (P : platform) (fuel : nat) (mx : positive)
    (w w' : world) (evs : list event) (rv : Z) (c : positive) :
  nni_cond_create P fuel mx w = (evs, Done (rv, Some c) w') ->
  allocated w !! c = None
  /\ allocated w' = <[c := sizeof_nni_cond P]> (allocated w)
  /\ mutexes w' = mutexes w
  /\ (exists cv, conds w' = <[c := {| cond_cv := Some cv; cond_mx := Some (mx_of mx) |}]>
                              (conds w)).
Proof.
  unfold nni_cond_create. run_unfold.
  destruct (nni_cond_attr P fuel w) as [e1 r1] eqn:Hattr.
  destruct (nni_cond_attr_summary _ _ _ _ _ Hattr) as (_ & _ & Hframe & _).
  destruct r1 as [[rv1 attrp] w1| | | |]; cbn [retval final] in *;
    try (intros [= <- <-]; fail); try discriminate.
  destruct (Hframe _ eq_refl) as (Ha & Hcs & Hms & _).
  ran.
  all: rewrite ?Ha, ?Hcs, ?Hms; repeat split; auto using fresh_not_live.
  all: eexists; rewrite ?lookup_insert_eq; cbn; apply insert_insert_eq.
Qed.

Lemma nni_cond_destroy_run (P : platform) (c : positive) (w : world)
    (cv : pthread_cond) (evs : list event) (r : result unit) :
  load_cond_cv c w = Some cv ->
  nni_cond_destroy P c w = (evs, r) ->
  (exists rv, rv <> 0
     /\ evs = [Call (CondDestroy c) rv]
     /\ r = Panicked "pthread_cond_destroy failed")
  \/ (exists w', evs = [Call (CondDestroy c) 0; Call (Free c (sizeof_nni_cond P)) 0]
        /\ r = Done tt w'
        /\ allocated w' = delete c (allocated w)
        /\ mutexes w' = delete c (mutexes w)
        /\ conds w' = delete c (conds w)).
Proof.
  intros Hcv. unfold nni_cond_destroy. run_unfold. revert Hcv. ran.
  all: try solve [left; eexists; split; [|split; reflexivity];
                  first [assumption | discriminate]].
  all: right; eexists; repeat split; auto.
  all: cbn; apply delete_insert_eq.
Qed.


Lemma nni_mutex_init_block (P : platform) (mp : positive) (w w' : world)
    (ty : mutex_type) (evs : list event) (rv : Z) :
  nni_mutexattr w = Some ty ->
  nni_mutex_init P mp w = (evs, Done rv w') ->
  failed is_mutex_init evs = false ->
  rv = 0
  /\ evs = [Call (MutexInit (mx_of mp) (Some ty)) 0]
  /\ allocated w' = allocated w
  /\ mutexes w' = <[mp := fresh_mutex ty]> (mutexes w)
  /\ conds w' = conds w.
Proof.
  intros Ha. unfold nni_mutex_init. run_unfold. rewrite Ha. ran.
  all: try match goal with
           | H : failed _ _ = false, Hz : ?z <> 0 |- _ =>
               cbn in H; rewrite (proj2 (Z.eqb_neq z 0) Hz) in H; discriminate
           end.
  all: repeat split; auto.
Qed.

(** X1.  Destroying a mutex straight after [nni_mutex_create] made it
    either ends in a panic, when the native destroy returns an error, with
    nothing released; or releases the block with the size it was allocated
    with, after which the allocator's live blocks are exactly those from
    before the mutex was created and no object is left at the block's
    address. *)
Theorem nni_mutex_create_destroy (P : platform) (w w1 : world) (e1 e2 : list event)
    (rv : Z) (m : positive) (r : result unit) :
  nni_mutex_create P w = (e1, Done (rv, Some m) w1) ->
  nni_mutex_destroy P m w1 = (e2, r) ->
  (exists rv', rv' <> 0
     /\ e2 = [Call (MutexDestroy (mx_of m)) rv']
     /\ r = Panicked "pthread_mutex_destroy failed")
  \/ (exists w2, e2 = [Call (MutexDestroy (mx_of m)) 0;
                       Call (Free m (sizeof_nni_mutex P)) 0]
        /\ r = Done tt w2
        /\ allocated w2 = allocated w
        /\ mutexes w2 = delete m (mutexes w)
        /\ conds w2 = delete m (conds w)).
Proof.
  intros Hc Hd.
  destruct (nni_mutex_create_block _ _ _ _ _ _ Hc) as (Hnew & Ha & Hm & Hcs).
  assert (mutexes w1 !! m = Some (fresh_mutex PTHREAD_MUTEX_ERRORCHECK)) as Hl
    by (rewrite Hm; apply lookup_insert_eq).
  destruct (nni_mutex_destroy_run _ _ _ _ _ _ Hl Hd)
    as [?|(w2 & -> & -> & _ & Ha2 & Hm2 & Hc2)]; [left; assumption|].
  right. exists w2. repeat split.
  - rewrite Ha2, Ha. apply delete_insert_id, Hnew.
  - rewrite Hm2, Hm. apply delete_insert_eq.
  - rewrite Hc2, Hcs. reflexivity.
Qed.

Lemma nni_mutex_create_destroy_witness :
  exists w2,
    snd (nni_mutex_destroy linux_monotonic 1 (with_mutex [] 0)) = Done tt w2
    /\ allocated w2 = allocated (boot [] 0 (Some PTHREAD_MUTEX_ERRORCHECK)).
Proof.
  destruct (nni_mutex_create_destroy linux_monotonic
              (boot [] 0 (Some PTHREAD_MUTEX_ERRORCHECK)) (with_mutex [] 0)
              _ _ 0 1%positive _ eq_refl (surjective_pairing _))
    as [(rv' & Hrv & He & _)|(w2 & _ & Hr & Ha & _)].
  - exfalso. apply Hrv. injection He as <-. reflexivity.
  - exists w2. auto.
Defined.

(** X2.  Initialising a mutex in the caller's storage and finalising it
    again makes two native calls and none to the allocator; unless the
    native destroy fails, which is a panic, the allocator and the condition
    variables are as before and no mutex is left at that address. *)
Theorem nni_mutex_init_fini (P : platform) (mp : positive) (w w1 : world)
    (ty : mutex_type) (e1 e2 : list event) (rv : Z) (r : result unit) :
  nni_mutexattr w = Some ty ->
  nni_mutex_init P mp w = (e1, Done rv w1) ->
  failed is_mutex_init e1 = false ->
  nni_mutex_fini mp w1 = (e2, r) ->
  (exists rv', rv' <> 0
     /\ e2 = [Call (MutexDestroy (mx_of mp)) rv']
     /\ r = Panicked "pthread_mutex_destroy failed: %s")
  \/ (exists w2,
        e1 ++ e2 = [Call (MutexInit (mx_of mp) (Some ty)) 0;
                    Call (MutexDestroy (mx_of mp)) 0]
        /\ r = Done tt w2
        /\ allocated w2 = allocated w
        /\ mutexes w2 = delete mp (mutexes w)
        /\ conds w2 = conds w).
Proof.
  intros Hattr Hi Hok Hf.
  destruct (nni_mutex_init_block _ _ _ _ _ _ _ Hattr Hi Hok)
    as (_ & -> & Ha & Hm & Hc).
  assert (mutexes w1 !! mp = Some (fresh_mutex ty)) as Hl
    by (rewrite Hm; apply lookup_insert_eq).
  destruct (nni_mutex_fini_run _ _ _ _ _ Hl Hf)
    as [?|(w2 & -> & -> & _ & Ha2 & Hm2 & Hc2)]; [left; assumption|].
  right. exists w2. repeat split; try congruence.
  rewrite Hm2, Hm. apply delete_insert_eq.
Qed.

Lemma nni_mutex_init_fini_witness :
  exists w2,
    snd (nni_mutex_fini 9
           (set_mutexes (<[9%positive := fresh_mutex PTHREAD_MUTEX_ERRORCHECK]>
                           (mutexes (with_mutex [] 0))) (with_mutex [] 0)))
      = Done tt w2
    /\ allocated w2 = allocated (with_mutex [] 0).
Proof.
  destruct (nni_mutex_init_fini linux_monotonic 9 (with_mutex [] 0)
              (set_mutexes (<[9%positive := fresh_mutex PTHREAD_MUTEX_ERRORCHECK]>
                              (mutexes (with_mutex [] 0))) (with_mutex [] 0))
              PTHREAD_MUTEX_ERRORCHECK _ _ 0 _
              eq_refl eq_refl eq_refl (surjective_pairing _))
    as [(rv' & Hrv & He & _)|(w2 & _ & Hr & Ha & _)].
  - exfalso. apply Hrv. injection He as <-. reflexivity.
  - exists w2. auto.
Defined.

(** X3.  Destroying a condition variable straight after [nni_cond_create]
    made it either ends in a panic, when the native destroy returns an
    error, with nothing released; or releases the block with the size it was
    allocated with, after which the allocator's live blocks are exactly
    those from before the construction.  Neither call has changed any
    mutex other than one at the block's own address: the mutex the
    condition variable was paired with is as it was. *)
Theorem nni_cond_create_destroy (P : platform) (fuel : nat) (mx : positive)
    (w w1 : world) (e1 e2 : list event) (rv : Z) (c : positive) (r : result unit) :
  nni_cond_create P fuel mx w = (e1, Done (rv, Some c) w1) ->
  nni_cond_destroy P c w1 = (e2, r) ->
  mutexes w1 = mutexes w
  /\ ((exists rv', rv' <> 0
        /\ e2 = [Call (CondDestroy c) rv']
        /\ r = Panicked "pthread_cond_destroy failed")
      \/ (exists w2, e2 = [Call (CondDestroy c) 0;
                           Call (Free c (sizeof_nni_cond P)) 0]
            /\ r = Done tt w2
            /\ allocated w2 = allocated w
            /\ mutexes w2 = delete c (mutexes w)
            /\ conds w2 = delete c (conds w))).
Proof.
  intros Hc Hd.
  destruct (nni_cond_create_block _ _ _ _ _ _ _ _ Hc) as (Hnew & Ha & Hm & cv & Hcs).
  split; [exact Hm|].
  assert (load_cond_cv c w1 = Some cv) as Hl
    by (unfold load_cond_cv; rewrite Hcs, lookup_insert_eq; reflexivity).
  destruct (nni_cond_destroy_run _ _ _ _ _ _ Hl Hd)
    as [?|(w2 & -> & -> & Ha2 & Hm2 & Hc2)]; [left; assumption|].
  right. exists w2. repeat split.
  - rewrite Ha2, Ha. apply delete_insert_id, Hnew.
  - rewrite Hm2, Hm. reflexivity.
  - rewrite Hc2, Hcs. apply delete_insert_eq.
Qed.

Lemma nni_cond_create_destroy_witness :
  mutexes (with_cond [] 0) = mutexes (with_mutex [0; 0; 0; 0] 0)
  /\ exists w2,
       snd (nni_cond_destroy linux_monotonic 2 (with_cond [] 0)) = Done tt w2
       /\ allocated w2 = allocated (with_mutex [0; 0; 0; 0] 0).
Proof.
  destruct (nni_cond_create_destroy linux_monotonic 2 1
              (with_mutex [0; 0; 0; 0] 0) (with_cond [] 0)
              _ _ 0 2%positive _ eq_refl (surjective_pairing _))
    as [Hm [(rv' & Hrv & He & _)|(w2 & _ & Hr & Ha & _)]].
  - exfalso. apply Hrv. injection He as <-. reflexivity.
  - split; [exact Hm|]. exists w2. auto.
Defined.

(** ** Holding a mutex *)

Lemma nni_mutex_enter_free (m : positive) (w : world) (mu : pthread_mutex) :
  mutexes w !! m = Some mu ->
  mx_owner mu = None ->
  nni_mutex_enter m w =
    ([Call (MutexLock (mx_of m)) 0],
     Done tt (put_mutex (mx_of m) (take (self w) mu) w)).
Proof.
  intros Hm Ho. unfold nni_mutex_enter. run_unfold. rewrite Hm, Ho. reflexivity.
Qed.

Lemma put_mutex_back (m : positive) (w : world) (mu mu' : pthread_mutex) :
  mutexes w !! m = Some mu ->
  put_mutex (mx_of m) mu (put_mutex (mx_of m) mu' w) = w.
Proof.
  intros Hm. destruct w. unfold put_mutex, set_mutexes. cbn in *. f_equal.
  rewrite insert_insert_eq. apply insert_id, Hm.
Qed.

(** X4.  On a free mutex, [nni_mutex_enter] followed by [nni_mutex_exit]
    from the same thread makes one native lock and one native unlock,
    neither panics, and the world afterwards is the world before: the mutex
    is free again and nothing else has changed.  In between, the calling
    thread is the holder. *)
Theorem nni_mutex_enter_exit (m : positive) (w : world) (mu : pthread_mutex) :
  mutexes w !! m = Some mu ->
  mx_owner mu = None ->
  mx_depth mu = 0%nat ->
  exists w1,
    nni_mutex_enter m w = ([Call (MutexLock (mx_of m)) 0], Done tt w1)
    /\ (mx_owner <$> mutexes w1 !! m) = Some (Some (self w))
    /\ nni_mutex_exit m w1 = ([Call (MutexUnlock (mx_of m)) 0], Done tt w).
Proof.
  intros Hm Ho Hd. eexists. split; [apply (nni_mutex_enter_free m w mu Hm Ho)|].
  split.
  - cbn. rewrite lookup_insert_eq. reflexivity.
  - unfold nni_mutex_exit. run_unfold. rewrite lookup_insert_eq. run_unfold.
    rewrite Nat.eqb_refl, Hd. cbn.
    do 3 f_equal.
    replace {| mx_type := mx_type mu; mx_owner := None; mx_depth := 0 |} with mu
      by (destruct mu; cbn in *; subst; reflexivity).
    apply (put_mutex_back m w mu
             {| mx_type := mx_type mu; mx_owner := Some (self w); mx_depth := 1 |} Hm).
Qed.

Lemma nni_mutex_enter_exit_witness :
  exists w1,
    nni_mutex_enter 1 (with_mutex [] 0) = ([Call (MutexLock (mx_of 1)) 0], Done tt w1)
    /\ (mx_owner <$> mutexes w1 !! 1%positive) = Some (Some 1%nat)
    /\ nni_mutex_exit 1 w1 = ([Call (MutexUnlock (mx_of 1)) 0], Done tt (with_mutex [] 0)).
Proof.
  apply (nni_mutex_enter_exit 1 (with_mutex [] 0)
           (fresh_mutex PTHREAD_MUTEX_ERRORCHECK)); reflexivity.
Defined.

(** X5.  Mutual exclusion.  Once a thread has taken a free, non-recursive
    mutex, with [nni_mutex_enter] or with [nni_mutex_tryenter], the mutex
    stays with that thread whatever the others try: from any thread
    [nni_mutex_tryenter] returns NNG_EBUSY and changes nothing, and from any
    other thread [nni_mutex_enter] is suspended in the native lock without
    having changed anything. *)
Theorem nni_mutex_held_excludes (P : platform) (m : positive) (w w1 : world)
    (mu : pthread_mutex) (evs : list event) :
  mutexes w !! m = Some mu ->
  mx_owner mu = None ->
  mx_type mu <> PTHREAD_MUTEX_RECURSIVE ->
  nni_mutex_enter m w = (evs, Done tt w1)
  \/ nni_mutex_tryenter P m w = (evs, Done 0 w1) ->
  (forall t, nni_mutex_tryenter P m (set_self t w1) =
               ([Call (MutexTrylock (mx_of m)) EBUSY],
                Done (NNG_EBUSY P) (set_self t w1)))
  /\ (forall t, t <> self w -> nni_mutex_enter m (set_self t w1) = ([], Blocked)).
Proof.
  intros Hm Ho Hty Hrun.
  assert (w1 = put_mutex (mx_of m) (take (self w) mu) w) as ->.
  { destruct Hrun as [Hrun|Hrun].
    - rewrite (nni_mutex_enter_free m w mu Hm Ho) in Hrun. congruence.
    - rewrite (nni_mutex_tryenter_run P m w mu Hm Hty), Ho in Hrun. congruence. }
  split; intros t.
  - rewrite (nni_mutex_tryenter_run P m _ (take (self w) mu)); [reflexivity| |exact Hty].
    cbn. apply lookup_insert_eq.
  - intros Hne. unfold nni_mutex_enter, set_self. run_unfold.
    rewrite lookup_insert_eq.
    run_unfold. apply Nat.eqb_neq in Hne. rewrite Nat.eqb_sym, Hne. reflexivity.
Qed.

Lemma nni_mutex_held_excludes_witness :
  nni_mutex_tryenter linux_monotonic 1
    (set_self 2%nat (put_mutex (mx_of 1)
                   (take 1%nat (fresh_mutex PTHREAD_MUTEX_ERRORCHECK))
                   (with_mutex [] 0)))
  = ([Call (MutexTrylock (mx_of 1)) EBUSY],
     Done (NNG_EBUSY linux_monotonic)
       (set_self 2%nat (put_mutex (mx_of 1)
                      (take 1%nat (fresh_mutex PTHREAD_MUTEX_ERRORCHECK))
                      (with_mutex [] 0)))).
Proof.
  apply (nni_mutex_held_excludes linux_monotonic 1 (with_mutex [] 0) _
           (fresh_mutex PTHREAD_MUTEX_ERRORCHECK) [Call (MutexLock (mx_of 1)) 0]
           eq_refl eq_refl ltac:(discriminate) (or_introl eq_refl)).
Defined.

(** ** What a call leaves alone *)

Ltac other_objects :=
  repeat first
    [ rewrite lookup_insert_ne by first [eapply fresh_other; eassumption | congruence]
    | rewrite lookup_delete_ne by first [eapply fresh_other; eassumption | congruence] ].

Lemma call_frame (P : platform) (fuel : nat) (a : api) (w : world)
    (evs : list event) (r : result unit) (p : positive) (sz : Z) :
  allocated w !! p = Some sz ->
  call P fuel a w = (evs, r) ->
  forall w', final r = Some w' ->
    (destroys p a = false ->
       allocated w' !! p = Some sz /\ conds w' !! p = conds w !! p)
    /\ (uses_mutex p a = false -> mutexes w' !! p = mutexes w !! p).
Proof.
  intros Hp. destruct a; unfold call, drop; cbn [destroys uses_mutex].
  8:{ unfold nni_cond_create. run_unfold.
      destruct (nni_cond_attr P fuel w) as [e1 r1] eqn:Hattr.
      destruct (nni_cond_attr_summary _ _ _ _ _ Hattr) as (_ & _ & Hframe & _).
      destruct r1 as [[rv attrp] w1| | | |]; cbn [retval final] in *.
      2-5: intros [= <- <-]; discriminate.
      destruct (Hframe _ eq_refl) as (Ha & Hcs & Hms & _).
      rewrite <- Ha in Hp. rewrite <- Hcs, <- Hms.
      ran.
      all: cbn [final] in *; simplify_eq; run_cbn.
      all: split; [intros _; split|intros _]; other_objects; auto. }
  all: unfold nni_mutex_init, nni_mutex_fini, nni_mutex_create, nni_mutex_destroy,
    nni_mutex_enter, nni_mutex_exit, nni_mutex_tryenter, nni_cond_destroy,
    nni_cond_signal, nni_cond_broadcast, nni_cond_wait, nni_cond_timedwait.
  all: ran.
  all: cbn [final] in *; simplify_eq; run_cbn.
  all: split; [intros Hd; try apply Pos.eqb_neq in Hd; split
              |intros Hu; try apply Pos.eqb_neq in Hu]; other_objects; auto.
Qed.

Lemma uses_mutex_destroys (p : positive) (a : api) :
  uses_mutex p a = false -> destroys p a = false.
Proof. destruct a; cbn; auto. Qed.


Lemma process_mutex_frame (P : platform) (fuel : nat) (m : positive) (sz : Z)
    (prog : list api) :
  forall (w : world) (evs : list event) (r : result unit),
    forallb (fun a => negb (uses_mutex m a)) prog = true ->
    allocated w !! m = Some sz ->
    process P fuel prog w = (evs, r) ->
    forall w', final r = Some w' ->
      allocated w' !! m = Some sz /\ mutexes w' !! m = mutexes w !! m.
Proof.
  induction prog as [|a prog IH]; intros w evs r Hd Hc; cbn [process].
  - intros [= <- <-] w' [= <-]. auto.
  - cbn in Hd. apply andb_prop in Hd as [Hd1 Hd]. apply negb_true_iff in Hd1.
    unfold bind. destruct (call P fuel a w) as [e1 r1] eqn:Hcall.
    pose proof (call_frame _ _ _ _ _ _ _ _ Hc Hcall) as Hk.
    destruct r1 as [[] w1| | | |]; cbn [final] in Hk.
    2-5: intros [= <- <-]; discriminate.
    destruct (Hk _ eq_refl) as [Hk1 Hk2].
    destruct (Hk1 (uses_mutex_destroys _ _ Hd1)) as [Hc1 _].
    pose proof (Hk2 Hd1) as Hm1.
    destruct (process P fuel prog w1) as [e2 r2] eqn:Hp.
    intros [= <- <-] w' Hw'.
    destruct (IH _ _ _ Hd Hc1 Hp _ Hw') as [? ?]. split; congruence.
Qed.

(** X6.  Who holds a mutex changes only through calls that name it.  A
    mutex made by [nni_mutex_create] is, after any sequence of calls none of
    which names it (constructing, signalling, waiting on and destroying
    condition variables, among them ones paired with it, and every call on
    other mutexes), still live and in exactly the state it was in. *)
Theorem mutex_state_changes_by_name_only (P : platform) (fuel : nat) (w w1 w2 : world)
    (e1 e2 : list event) (rv : Z) (m : positive) (prog : list api) :
  nni_mutex_create P w = (e1, Done (rv, Some m) w1) ->
  forallb (fun a => negb (uses_mutex m a)) prog = true ->
  process P fuel prog w1 = (e2, Done tt w2) ->
  allocated w2 !! m = Some (sizeof_nni_mutex P)
  /\ mutexes w2 !! m = Some (fresh_mutex PTHREAD_MUTEX_ERRORCHECK).
Proof.
  intros Hc Hprog Hrun.
  destruct (nni_mutex_create_block _ _ _ _ _ _ Hc) as (_ & Ha & Hm & _).
  assert (allocated w1 !! m = Some (sizeof_nni_mutex P)) as Hl
    by (rewrite Ha; apply lookup_insert_eq).
  destruct (process_mutex_frame _ _ _ _ _ _ _ _ Hprog Hl Hrun _ eq_refl) as [? ->].
  split; [assumption|]. rewrite Hm. apply lookup_insert_eq.
Qed.

Lemma mutex_state_changes_by_name_only_witness :
  mutexes (with_cond [] 0) !! 1%positive
  = Some (fresh_mutex PTHREAD_MUTEX_ERRORCHECK).
Proof.
  apply (mutex_state_changes_by_name_only linux_monotonic 2
           (boot [] 0 (Some PTHREAD_MUTEX_ERRORCHECK)) (with_mutex [] 0)
           (with_cond [] 0) _ _ 0 1%positive [COND_CREATE 1; COND_SIGNAL 2]
           eq_refl eq_refl eq_refl).
Defined.



(** ** Calls that stay away from the allocator *)

Lemma heap_calls_app (e1 e2 : list event) :
  heap_calls (e1 ++ e2) = heap_calls e1 ++ heap_calls e2.
Proof. apply List.filter_app. Qed.

Lemma call_no_heap (P : platform) (fuel : nat) (a : api) (w : world)
    (evs : list event) (r : result unit) :
  constructs_or_destroys a = false ->
  call P fuel a w = (evs, r) ->
  heap_calls evs = []
  /\ forall w', final r = Some w' ->
       allocated w' = allocated w /\ conds w' = conds w /\ same_statics w w'.
Proof.
  destruct a; cbn [constructs_or_destroys]; try discriminate; intros _.
  all: unfold call, drop, same_statics.
  all: unfold nni_mutex_init, nni_mutex_fini, nni_mutex_enter, nni_mutex_exit,
    nni_mutex_tryenter, nni_cond_signal, nni_cond_broadcast, nni_cond_wait,
    nni_cond_timedwait.
  all: ran.
  all: cbn; split; [reflexivity|]; intros; simplify_eq; cbn; auto.
Qed.

(** X8.  Only the constructors and the destructors go to the allocator.  A
    process that initialises and finalises mutexes in place, locks, unlocks,
    signals, broadcasts and waits, in any order and on any handles, makes no
    allocator call; the live blocks, the condition-variable objects and the
    statics of [nni_cond_attr] are afterwards what they were. *)
Theorem operations_never_allocate (P : platform) (fuel : nat) (prog : list api) :
  forall (w : world) (evs : list event) (r : result unit),
    forallb (fun a => negb (constructs_or_destroys a)) prog = true ->
    process P fuel prog w = (evs, r) ->
    heap_calls evs = []
    /\ forall w', final r = Some w' ->
         allocated w' = allocated w /\ conds w' = conds w /\ same_statics w w'.
Proof.
  unfold same_statics.
  induction prog as [|a prog IH]; intros w evs r Hd; cbn [process].
  - intros [= <- <-]. split; [reflexivity|]. intros w' [= <-]. repeat split.
  - cbn in Hd. apply andb_prop in Hd as [Hd1 Hd]. apply negb_true_iff in Hd1.
    unfold bind. destruct (call P fuel a w) as [e1 r1] eqn:Hcall.
    destruct (call_no_heap _ _ _ _ _ _ Hd1 Hcall) as [Hh1 Hk].
    destruct r1 as [[] w1| | | |]; cbn [final] in Hk.
    2-5: intros [= <- <-]; split; [assumption | discriminate].
    destruct (Hk _ eq_refl) as (Ha & Hc & Hi & Hat & Hmx).
    destruct (process P fuel prog w1) as [e2 r2] eqn:Hp.
    destruct (IH _ _ _ Hd Hp) as [Hh2 Hk2].
    intros [= <- <-]. rewrite heap_calls_app, Hh1, Hh2. split; [reflexivity|].
    intros w' Hw'. destruct (Hk2 _ Hw') as (? & ? & ? & ? & ?).
    repeat split; congruence.
Qed.

Lemma operations_never_allocate_witness :
  heap_calls
    (fst (process linux_monotonic 2
            [MUTEX_ENTER 1; COND_SIGNAL 2; COND_TIMEDWAIT 2 5; MUTEX_EXIT 1;
             MUTEX_INIT 9; MUTEX_FINI 9]
            (with_cond [0; 110] 0))) = [].
Proof.
  apply (operations_never_allocate linux_monotonic 2
           [MUTEX_ENTER 1; COND_SIGNAL 2; COND_TIMEDWAIT 2 5; MUTEX_EXIT 1;
            MUTEX_INIT 9; MUTEX_FINI 9]
           (with_cond [0; 110] 0) _ _ eq_refl (surjective_pairing _)).
Defined.

(** ** The deadline of a timed wait *)

Lemma deadline_code_bounds (t : Z) :
  0 <= t ->
  0 <= tv_sec (deadline_code t)
  /\ 0 <= tv_nsec (deadline_code t) < 10000000
  /\ 1000 * t - 990000000
       <= tv_sec (deadline_code t) * 1000000000 + tv_nsec (deadline_code t)
       <= 1000 * t.
Proof.
  intros Ht. unfold deadline_code. cbn [tv_sec tv_nsec].
  assert (t mod 10000 = (t mod 1000000) mod 10000) as Hm.
  { symmetry. apply Z.mod_mod_divide. exists 100. reflexivity. }
  pose proof (Z.div_mod t 1000000 ltac:(lia)) as Hq.
  pose proof (Z.mod_pos_bound t 1000000 ltac:(lia)) as Hr.
  pose proof (Z.div_mod (t mod 1000000) 10000 ltac:(lia)) as Hq2.
  pose proof (Z.mod_pos_bound (t mod 1000000) 10000 ltac:(lia)) as Hr2.
  assert (0 <= t / 1000000) by (apply Z.div_pos; lia).
  assert (0 <= (t mod 1000000) / 10000 <= 99).
  { split; [apply Z.div_pos; lia|].
    apply Z.lt_succ_r. apply Z.div_lt_upper_bound; lia. }
  rewrite Hm. lia.
Qed.

(** X9.  On an initialised condition variable [nni_cond_timedwait] hands
    the native wait a well-formed [timespec]: seconds not negative,
    nanoseconds from 0 to under 10000000.  Counted in nanoseconds, with [t]
    the microsecond sum of the offset and the clock reading, the deadline is
    never later than [1000 * t] and at most 990 milliseconds earlier. *)
Theorem nni_cond_timedwait_deadline_range (P : platform) (c : positive) (usec : Z)
    (w : world) (cv : pthread_cond) (mx : mutex_ref) :
  load_cond_cv c w = Some cv ->
  load_cond_mx c w = Some mx ->
  exists ts rv,
    fst (nni_cond_timedwait P c usec w) = [Call (CondTimedwait c mx ts) rv]
    /\ 0 <= tv_sec ts
    /\ 0 <= tv_nsec ts < 10000000
    /\ 1000 * ((usec + clock w mod 2 ^ 64) mod 2 ^ 64) - 990000000
         <= tv_sec ts * 1000000000 + tv_nsec ts
         <= 1000 * ((usec + clock w mod 2 ^ 64) mod 2 ^ 64).
Proof.
  intros Hcv Hmx.
  destruct (nni_cond_timedwait_run P c usec w cv mx Hcv Hmx) as (rv & w' & Heq).
  rewrite Heq. eexists _, rv. split; [reflexivity|].
  apply deadline_code_bounds.
  apply Z.mod_pos_bound. lia.
Qed.

Lemma nni_cond_timedwait_deadline_range_witness :
  exists ts rv,
    fst (nni_cond_timedwait linux_monotonic 2 1999999 (with_cond [] 5))
      = [Call (CondTimedwait 2 (mx_of 1) ts) rv]
    /\ 0 <= tv_sec ts
    /\ 0 <= tv_nsec ts < 10000000
    /\ 1000 * ((1999999 + 5 mod 2 ^ 64) mod 2 ^ 64) - 990000000
         <= tv_sec ts * 1000000000 + tv_nsec ts
         <= 1000 * ((1999999 + 5 mod 2 ^ 64) mod 2 ^ 64).
Proof.
  apply (nni_cond_timedwait_deadline_range linux_monotonic 2 1999999
           (with_cond [] 5) {| cv_clock := 1 |} (mx_of 1)); reflexivity.
Defined.

(** X10.  The offset and the clock are added as 64-bit unsigned numbers.
    When their sum reaches 2^64 it wraps, and the deadline
    [nni_cond_timedwait] hands to the native wait is that of the wrapped
    sum, which lies before the current clock reading: the largest offsets
    give a deadline in the past, not a long wait. *)
Theorem nni_cond_timedwait_wraps (P : platform) (c : positive) (usec : Z)
    (w : world) (cv : pthread_cond) (mx : mutex_ref) :
  load_cond_cv c w = Some cv ->
  load_cond_mx c w = Some mx ->
  0 <= usec < 2 ^ 64 ->
  0 <= clock w < 2 ^ 64 ->
  2 ^ 64 <= usec + clock w ->
  exists rv,
    fst (nni_cond_timedwait P c usec w)
    = [Call (CondTimedwait c mx (deadline_code (usec + clock w - 2 ^ 64))) rv]
    /\ usec + clock w - 2 ^ 64 < clock w
    /\ tv_sec (deadline_code (usec + clock w - 2 ^ 64)) <= clock w / 1000000.
Proof.
  intros Hcv Hmx Hu Hc Hsum.
  destruct (nni_cond_timedwait_run P c usec w cv mx Hcv Hmx) as (rv & w' & Heq).
  rewrite Heq. exists rv.
  rewrite (Z.mod_small (clock w)) by lia.
  replace ((usec + clock w) mod 2 ^ 64) with (usec + clock w - 2 ^ 64).
  - split; [reflexivity|]. split; [lia|].
    cbn [deadline_code tv_sec]. apply Z.div_le_mono; lia.
  - apply Z.mod_unique with 1; lia.
Qed.

Lemma nni_cond_timedwait_wraps_witness :
  exists rv,
    fst (nni_cond_timedwait linux_monotonic 2 (2 ^ 64 - 1) (with_cond [] 5000000))
    = [Call (CondTimedwait 2 (mx_of 1)
               (deadline_code (2 ^ 64 - 1 + 5000000 - 2 ^ 64))) rv]
    /\ 2 ^ 64 - 1 + 5000000 - 2 ^ 64 < 5000000
    /\ tv_sec (deadline_code (2 ^ 64 - 1 + 5000000 - 2 ^ 64)) <= 5000000 / 1000000.
Proof.
  apply (nni_cond_timedwait_wraps linux_monotonic 2 (2 ^ 64 - 1)
           (with_cond [] 5000000) {| cv_clock := 1 |} (mx_of 1));
    try reflexivity; cbn; lia.
Defined.

(** ** The clock of every condition variable *)

Lemma nni_cond_attr_statics (P : platform) (fuel : nat) (w : world)
    (evs : list event) (r : result (Z * option condattr_ptr)) :
  (static_init w <> 0 -> static_attr w = Some {| ca_clock := NNG_USE_CLOCKID P |}) ->
  nni_cond_attr P fuel w = (evs, r) ->
  forall w', final r = Some w' ->
    static_init w' <> 0 -> static_attr w' = Some {| ca_clock := NNG_USE_CLOCKID P |}.
Proof.
  intros Hok. unfold nni_cond_attr, nni_cond_attr_body.
  destruct (wall_clock_build P).
  { intros [= <- <-] w' [= <-]. exact Hok. }
  destruct fuel as [|[|fuel]]; ran.
  all: cbn [final] in *; simplify_eq; run_cbn; auto; congruence.
Qed.

Ltac entry_cases :=
  repeat match goal with
         | H : context [<[?p := _]> _ !! ?c] |- _ =>
             destruct (decide (p = c)) as [<-|?];
             [rewrite lookup_insert_eq in H | rewrite lookup_insert_ne in H by assumption]
         | H : context [delete ?p _ !! ?c] |- _ =>
             destruct (decide (p = c)) as [<-|?];
             [rewrite lookup_delete_eq in H | rewrite lookup_delete_ne in H by assumption]
         end.

Lemma call_clocks_ok (P : platform) (fuel : nat) (a : api) (w : world)
    (evs : list event) (r : result unit) :
  clocks_ok P w ->
  call P fuel a w = (evs, r) ->
  forall w', final r = Some w' -> clocks_ok P w'.
Proof.
  unfold clocks_ok. intros [Hst Hcv]. destruct a; unfold call, drop.
  8:{ unfold nni_cond_create. run_unfold.
      destruct (nni_cond_attr P fuel w) as [e1 r1] eqn:Hattr.
      pose proof (nni_cond_attr_statics _ _ _ _ _ Hst Hattr) as Hst1.
      destruct (nni_cond_attr_summary _ _ _ _ _ Hattr)
        as (_ & _ & Hframe & Hres & _ & _ & Hset).
      destruct r1 as [[rv attrp] w1| | | |]; cbn [retval final] in *.
      2-5: intros [= <- <-]; discriminate.
      destruct (Hframe _ eq_refl) as (_ & Hcs & _).
      specialize (Hst1 _ eq_refl). rewrite <- Hcs in Hcv.
      assert (forall a', attrp = Some a' ->
                clock_of P a' w1 = Some (expected_clock P)) as Hclk.
      { intros a' ->. unfold expected_clock, clock_of.
        destruct (Hres _ _ eq_refl) as [[= -> ->]|[= _ ?]]; try discriminate.
        unfold resolved. destruct (wall_clock_build P) eqn:Hb; [reflexivity|].
        rewrite Hst1; [reflexivity|]. exact (proj1 (Hset eq_refl _ _ _ eq_refl)). }
      clear Hframe Hres Hset Hattr Hst.
      run.
      all: intros; simplify_eq; cbn [final] in *; simplify_eq; run_cbn.
      all: split; [assumption|]; intros c' o cv' Hl Hc'.
      all: try (unfold clock_of in *; run_cbn;
                match goal with
                | H : forall a', Some ?x = Some a' -> _ |- _ =>
                    specialize (H _ eq_refl)
                end).
      all: entry_cases; simplify_eq; cbn in *; simplify_eq; eauto. }
  all: unfold nni_mutex_init, nni_mutex_fini, nni_mutex_create, nni_mutex_destroy,
    nni_mutex_enter, nni_mutex_exit, nni_mutex_tryenter, nni_cond_destroy,
    nni_cond_signal, nni_cond_broadcast, nni_cond_wait, nni_cond_timedwait.
  all: ran.
  all: cbn [final] in *; simplify_eq; run_cbn.
  all: split; [assumption|]; intros c' o cv' Hl Hc'.
  all: entry_cases; simplify_eq; cbn in *; simplify_eq; eauto.
Qed.

Lemma process_clocks_ok (P : platform) (fuel : nat) (prog : list api) :
  forall (w : world) (evs : list event) (r : result unit),
    clocks_ok P w ->
    process P fuel prog w = (evs, r) ->
    forall w', final r = Some w' -> clocks_ok P w'.
Proof.
  induction prog as [|a prog IH]; intros w evs r Hok; cbn [process].
  - intros [= <- <-] w' [= <-]. exact Hok.
  - unfold bind. destruct (call P fuel a w) as [e1 r1] eqn:Hcall.
    pose proof (call_clocks_ok _ _ _ _ _ _ Hok Hcall) as Hk.
    destruct r1 as [[] w1| | | |]; cbn [final] in Hk.
    2-5: intros [= <- <-]; discriminate.
    destruct (process P fuel prog w1) as [e2 r2] eqn:Hp.
    intros [= <- <-] w' Hw'. exact (IH _ _ _ (Hk _ eq_refl) Hp _ Hw').
Qed.

(** X11.  In a process that starts with no condition variables and the
    statics of [nni_cond_attr] as the C initialisers leave them, every
    condition variable that exists after any sequence of calls measures its
    deadlines against the clock of the build: NNG_USE_CLOCKID, or
    CLOCK_REALTIME in a wall-clock build.  No path of [nni_cond_create]
    initialises one against another clock, whatever failed before. *)
Theorem every_cond_on_the_build_clock (P : platform) (fuel : nat) (prog : list api)
    (t : list Z) (now : Z) (ma : pthread_mutexattr) (evs : list event)
    (w' : world) (c : positive) (o : nni_cond) (cv : pthread_cond) :
  process P fuel prog (boot t now ma) = (evs, Done tt w') ->
  conds w' !! c = Some o ->
  cond_cv o = Some cv ->
  cv_clock cv = expected_clock P.
Proof.
  intros Hrun.
  assert (clocks_ok P (boot t now ma)) as Hboot.
  { split; [intros H; destruct (H eq_refl)|].
    intros c' o' cv' Hl. cbn in Hl. rewrite lookup_empty in Hl. discriminate. }
  exact (proj2 (process_clocks_ok _ _ _ _ _ _ Hboot Hrun _ eq_refl) c o cv).
Qed.

Lemma every_cond_on_the_build_clock_witness :
  cv_clock {| cv_clock := 1 |} = expected_clock linux_monotonic.
Proof.
  eapply (every_cond_on_the_build_clock linux_monotonic 2
            [MUTEX_CREATE; COND_CREATE 1; COND_CREATE 1]
            [0; 0; 0; 0; 0; 12; 0; 0; 0; 0] 0 (Some PTHREAD_MUTEX_ERRORCHECK) _
            (with_cond [] 0) 2%positive
            {| cond_cv := Some {| cv_clock := 1 |}; cond_mx := Some (mx_of 1) |}
            {| cv_clock := 1 |}); reflexivity.
Defined.

(** ** Temporary objects and the internal lock *)

(** X12.  [nni_mutex_create] does not return with its attribute object
    still initialised: on every return, with an error code or with a
    handle, a [pthread_mutexattr_init] that succeeded has been followed by a
    [pthread_mutexattr_destroy] that succeeded, as the last native call on
    the success path, and the failing init has left nothing to destroy. *)
Theorem nni_mutex_create_destroys_attr (P : platform) (w w' : world)
    (evs : list event) (rv : Z) (out : option positive) :
  nni_mutex_create P w = (evs, Done (rv, out) w') ->
  (In (Call MutexattrInit 0) evs <-> In (Call MutexattrDestroy 0) evs)
  /\ failed is_mutexattr_destroy evs = false
  /\ (forall m, out = Some m -> exists pre, evs = pre ++ [Call MutexattrDestroy 0]).
Proof.
  unfold nni_mutex_create. ran.
  all: cbn; repeat split; intros; simplify_eq.
  all: repeat match goal with
              | H : _ \/ _ |- _ => destruct H
              | H : Call _ _ = Call _ _ |- _ => injection H as ?; subst
              | H : False |- _ => destruct H
              end; try congruence; auto 10.
  all: eexists [_; _; _; _]; reflexivity.
Qed.

Lemma nni_mutex_create_destroys_attr_witness :
  In (Call MutexattrInit 0)
     (fst (nni_mutex_create linux_monotonic (boot [0; 0; 0; 12] 0 None)))
  <-> In (Call MutexattrDestroy 0)
        (fst (nni_mutex_create linux_monotonic (boot [0; 0; 0; 12] 0 None))).
Proof.
  eapply (nni_mutex_create_destroys_attr linux_monotonic
            (boot [0; 0; 0; 12] 0 None) (boot [] 0 None) _ 2 None).
  reflexivity.
Defined.

Lemma nni_cond_attr_unlocks (P : platform) (fuel : nat) (w : world)
    (evs : list event) (r : result (Z * option condattr_ptr)) :
  static_mx w = PTHREAD_MUTEX_INITIALIZER ->
  nni_cond_attr P fuel w = (evs, r) ->
  forall w', final r = Some w' -> static_mx w' = PTHREAD_MUTEX_INITIALIZER.
Proof.
  intros Hmx. unfold nni_cond_attr, nni_cond_attr_body.
  destruct (wall_clock_build P).
  { intros [= <- <-] w' [= <-]. exact Hmx. }
  run_unfold. destruct (Z.eqb_spec (static_init w) 0) as [Hi|Hi]; cbn [negb].
  2:{ intros [= <- <-] w' [= <-]. exact Hmx. }
  rewrite Hmx. destruct fuel as [|[|fuel]]; run_unfold; try rewrite Hi; literals; ran.
  all: intros; cbn [final] in *; simplify_eq; run_cbn; reflexivity.
Qed.

Lemma nni_cond_attr_comes_back (P : platform) (fuel : nat) (w : world)
    (evs : list event) (r : result (Z * option condattr_ptr)) :
  static_mx w = PTHREAD_MUTEX_INITIALIZER ->
  nni_cond_attr P (S (S fuel)) w = (evs, r) ->
  (exists x w', r = Done x w') \/ panics r.
Proof.
  intros Hmx. unfold nni_cond_attr, nni_cond_attr_body, panics.
  destruct (wall_clock_build P).
  { intros [= <- <-]. eauto. }
  run_unfold. destruct (Z.eqb_spec (static_init w) 0) as [Hi|Hi]; cbn [negb].
  2:{ intros [= <- <-]. eauto. }
  rewrite Hmx. run_unfold. rewrite Hi. literals. ran.
  all: eauto.
Qed.

Lemma call_unlocks (P : platform) (fuel : nat) (a : api) (w : world)
    (evs : list event) (r : result unit) :
  static_mx w = PTHREAD_MUTEX_INITIALIZER ->
  call P fuel a w = (evs, r) ->
  forall w', final r = Some w' -> static_mx w' = PTHREAD_MUTEX_INITIALIZER.
Proof.
  intros Hmx. destruct a; unfold call, drop.
  8:{ unfold nni_cond_create. run_unfold.
      destruct (nni_cond_attr P fuel w) as [e1 r1] eqn:Hattr.
      pose proof (nni_cond_attr_unlocks _ _ _ _ _ Hmx Hattr) as Hmx1.
      destruct r1 as [[rv attrp] w1| | | |]; cbn [final] in *.
      2-5: intros [= <- <-]; discriminate.
      specialize (Hmx1 _ eq_refl). clear Hattr.
      ran.
      all: intros; simplify_eq; cbn [final] in *; simplify_eq; run_cbn; assumption. }
  all: unfold nni_mutex_init, nni_mutex_fini, nni_mutex_create, nni_mutex_destroy,
    nni_mutex_enter, nni_mutex_exit, nni_mutex_tryenter, nni_cond_destroy,
    nni_cond_signal, nni_cond_broadcast, nni_cond_wait, nni_cond_timedwait.
  all: ran.
  all: cbn [final] in *; intros; simplify_eq; run_cbn; assumption.
Qed.

Lemma process_unlocks (P : platform) (fuel : nat) (prog : list api) :
  forall (w : world) (evs : list event) (r : result unit),
    static_mx w = PTHREAD_MUTEX_INITIALIZER ->
    process P fuel prog w = (evs, r) ->
    forall w', final r = Some w' -> static_mx w' = PTHREAD_MUTEX_INITIALIZER.
Proof.
  induction prog as [|a prog IH]; intros w evs r Hok; cbn [process].
  - intros [= <- <-] w' [= <-]. exact Hok.
  - unfold bind. destruct (call P fuel a w) as [e1 r1] eqn:Hcall.
    pose proof (call_unlocks _ _ _ _ _ _ Hok Hcall) as Hk.
    destruct r1 as [[] w1| | | |]; cbn [final] in Hk.
    2-5: intros [= <- <-]; discriminate.
    destruct (process P fuel prog w1) as [e2 r2] eqn:Hp.
    intros [= <- <-] w' Hw'. exact (IH _ _ _ (Hk _ eq_refl) Hp _ Hw').
Qed.

(** X13.  In a process whose calls run one after another from the state
    the C initialisers leave, [nni_cond_create] always comes back: it
    returns or it panics.  It is never suspended on the internal lock of
    [nni_cond_attr], which every returning path has released, the failure
    path included, and it never hands [pthread_cond_init] an attribute that
    was not initialised, provided NNG_ENOMEM is not 0, so that the failure
    of [nni_cond_attr] is told from its success.  Two rounds of the loop
    are enough. *)
Theorem nni_cond_create_comes_back (P : platform) (fuel fuel' : nat)
    (prog : list api) (t : list Z) (now : Z) (ma : pthread_mutexattr)
    (evs e : list event) (w' : world) (mx : positive)
    (r : result (Z * option positive)) :
  NNG_ENOMEM P <> 0 ->
  process P fuel prog (boot t now ma) = (evs, Done tt w') ->
  nni_cond_create P (S (S fuel')) mx w' = (e, r) ->
  static_mx w' = PTHREAD_MUTEX_INITIALIZER
  /\ ((exists x w'', r = Done x w'') \/ panics r).
Proof.
  intros Hno Hrun.
  assert (clocks_ok P (boot t now ma)) as Hboot.
  { split; [intros H; destruct (H eq_refl)|].
    intros c' o' cv' Hl. cbn in Hl. rewrite lookup_empty in Hl. discriminate. }
  pose proof (proj1 (process_clocks_ok _ _ _ _ _ _ Hboot Hrun _ eq_refl)) as Hst.
  pose proof (process_unlocks P fuel prog (boot t now ma) _ _ eq_refl Hrun _ eq_refl) as Hmx.
  intros Hc. split; [exact Hmx|]. revert Hc.
  unfold nni_cond_create. run_unfold.
  destruct (nni_cond_attr P (S (S fuel')) w') as [e1 r1] eqn:Hattr.
  pose proof (nni_cond_attr_statics _ _ _ _ _ Hst Hattr) as Hst1.
  destruct (nni_cond_attr_summary _ _ _ _ _ Hattr)
    as (_ & _ & _ & Hres & _ & _ & Hset).
  pose proof (nni_cond_attr_comes_back _ _ _ _ _ Hmx Hattr) as Hback.
  destruct r1 as [[rv attrp] w1|msg| | |]; cbn [retval final] in *.
  2: intros [= <- <-]; right; eexists; reflexivity.
  2-4: destruct Hback as [(? & ? & ?)|[? ?]]; discriminate.
  clear Hback.
  specialize (Hst1 _ eq_refl).
  destruct (Hres _ _ eq_refl) as [[= -> ->]|[= -> ->]].
  2:{ rewrite (proj2 (Z.eqb_neq _ _) Hno). cbn [negb]. intros [= <- <-]. eauto. }
  assert (exists k, clock_of P (resolved P) w1 = Some k) as [k Hk].
  { unfold clock_of, resolved.
    destruct (wall_clock_build P) eqn:Hb; [eauto|].
    rewrite Hst1; [eauto|]. exact (proj1 (Hset eq_refl _ _ _ eq_refl)). }
  clear Hattr Hres Hset Hst Hst1.
  unfold panics. ran.
  all: unfold clock_of in *; run_cbn; simplify_eq; eauto.
Qed.

Lemma nni_cond_create_comes_back_witness :
  static_mx (with_cond [] 0) = PTHREAD_MUTEX_INITIALIZER
  /\ ((exists x w'',
         snd (nni_cond_create linux_monotonic 2 1 (with_cond [] 0)) = Done x w'')
      \/ panics (snd (nni_cond_create linux_monotonic 2 1 (with_cond [] 0)))).
Proof.
  eapply (nni_cond_create_comes_back linux_monotonic 2 0
            [MUTEX_CREATE; COND_CREATE 1; COND_CREATE 1]
            [0; 0; 0; 0; 0; 12; 0; 0; 0; 0]%Z 0 (Some PTHREAD_MUTEX_ERRORCHECK)).
  - discriminate.
  - reflexivity.
  - apply surjective_pairing.
Defined.

(** ** Which failures are fatal *)

Ltac codes :=
  repeat match goal with
         | H : ?a <> ?b |- context [?a =? ?b] => rewrite (proj2 (Z.eqb_neq a b) H)
         | H : ?a = ?b |- context [?a =? ?b] => rewrite (proj2 (Z.eqb_eq a b) H)
         end.

Ltac fatal_table :=
  unfold panics; cbn [existsb fatal_failure andb orb negb];
  codes; literals; rewrite ?Z.eqb_refl, ?andb_false_r; cbn [andb orb negb];
  split; intros; simplify_eq;
  repeat match goal with H : exists _, _ |- _ => destruct H end;
  simplify_eq; eauto.

Lemma nni_cond_attr_panics (P : platform) (fuel : nat) (w : world)
    (evs : list event) (r : result (Z * option condattr_ptr)) :
  static_mx w = PTHREAD_MUTEX_INITIALIZER ->
  nni_cond_attr P fuel w = (evs, r) ->
  panics r <-> existsb (fatal_failure P) evs = true.
Proof.
  intros Hmx. unfold nni_cond_attr, nni_cond_attr_body.
  destruct (wall_clock_build P).
  { intros [= <- <-]. fatal_table. }
  run_unfold. destruct (Z.eqb_spec (static_init w) 0) as [Hi|Hi]; cbn [negb].
  2:{ intros [= <- <-]. fatal_table. }
  rewrite Hmx. destruct fuel as [|[|fuel]]; run_unfold; try rewrite Hi; literals; ran.
  all: fatal_table.
Qed.

Lemma call_panics (P : platform) (fuel : nat) (a : api) (w : world)
    (evs : list event) (r : result unit) :
  static_mx w = PTHREAD_MUTEX_INITIALIZER ->
  call P fuel a w = (evs, r) ->
  panics r <-> existsb (fatal_failure P) evs = true.
Proof.
  intros Hmx. destruct a; unfold call, drop.
  8:{ unfold nni_cond_create. run_unfold.
      destruct (nni_cond_attr P fuel w) as [e1 r1] eqn:Hattr.
      pose proof (nni_cond_attr_panics _ _ _ _ _ Hmx Hattr) as Hp.
      destruct r1 as [[rv attrp] w1|msg| | |].
      2-5: intros [= <- <-]; rewrite <- Hp; unfold panics;
           split; intros [? ?]; simplify_eq; eauto.
      assert (existsb (fatal_failure P) e1 = false) as He1.
      { destruct (existsb (fatal_failure P) e1); [|reflexivity].
        destruct (proj2 Hp eq_refl) as [? ?]; discriminate. }
      clear Hattr Hp.
      ran.
      all: rewrite ?existsb_app, ?He1; fatal_table. }
  all: unfold nni_mutex_init, nni_mutex_fini, nni_mutex_create, nni_mutex_destroy,
    nni_mutex_enter, nni_mutex_exit, nni_mutex_tryenter, nni_cond_destroy,
    nni_cond_signal, nni_cond_broadcast, nni_cond_wait, nni_cond_timedwait.
  all: ran.
  all: fatal_table.
Qed.

(** X14.  A process that starts with the internal lock of [nni_cond_attr]
    free panics exactly when one of the calls whose result the file cannot
    hand back has failed: setting the type or destroying the
    mutex attribute, destroying, locking or unlocking a mutex, setting the
    clock of the condition attribute, destroying, signalling, broadcasting
    or waiting on a condition variable, or a timed wait that failed with a
    code other than ETIMEDOUT.  No other failure ends the process, and none
    of these is survived. *)
Theorem panic_iff_fatal_failure (P : platform) (fuel : nat) (prog : list api) :
  forall (w : world) (evs : list event) (r : result unit),
    static_mx w = PTHREAD_MUTEX_INITIALIZER ->
    process P fuel prog w = (evs, r) ->
    panics r <-> existsb (fatal_failure P) evs = true.
Proof.
  induction prog as [|a prog IH]; intros w evs r Hmx; cbn [process].
  - intros [= <- <-]. fatal_table.
  - unfold bind. destruct (call P fuel a w) as [e1 r1] eqn:Hcall.
    pose proof (call_panics _ _ _ _ _ _ Hmx Hcall) as Hp.
    pose proof (call_unlocks _ _ _ _ _ _ Hmx Hcall) as Hk.
    destruct r1 as [[] w1|msg| | |]; cbn [final] in Hk.
    2-5: intros [= <- <-]; rewrite <- Hp; unfold panics;
         split; intros [? ?]; simplify_eq; eauto.
    destruct (process P fuel prog w1) as [e2 r2] eqn:Hrest.
    intros [= <- <-]. rewrite existsb_app.
    assert (existsb (fatal_failure P) e1 = false) as ->.
    { destruct (existsb (fatal_failure P) e1); [|reflexivity].
      destruct (proj2 Hp eq_refl) as [? ?]; discriminate. }
    exact (IH _ _ _ (Hk _ eq_refl) Hrest).
Qed.

Lemma panic_iff_fatal_failure_witness :
  panics (snd (process linux_monotonic 2 [MUTEX_CREATE; MUTEX_ENTER 1; MUTEX_ENTER 1]
                 (boot [] 0 None)))
  <-> existsb (fatal_failure linux_monotonic)
        (fst (process linux_monotonic 2 [MUTEX_CREATE; MUTEX_ENTER 1; MUTEX_ENTER 1]
                (boot [] 0 None))) = true.
Proof.
  apply (panic_iff_fatal_failure linux_monotonic 2
           [MUTEX_CREATE; MUTEX_ENTER 1; MUTEX_ENTER 1] (boot [] 0 None)).
  - reflexivity.
  - apply surjective_pairing.
Defined.
